(** * The chat server of mcp-elpris: a shallow embedding of
      [chat-server/src/index.ts] and the properties of its two-round,
      tool-augmented conversation.

    The server talks to two collaborators, the language model
    ([generateContent]) and the MCP tool endpoint ([connect], [callTool],
    [close]).  Their answers are not computed by the program, so they are
    taken from a [World]: a family of oracles that may look at everything the
    request has done so far.  What the program does to the outside is logged,
    in order, in a [History] of [Event]s; the asynchronous, throwing code is
    written in a small state-and-error monad [Async] over that history. *)

From Stdlib Require Import List String Ascii ZArith Bool Lia.
From Stdlib Require DecimalString.
Import ListNotations.
Open Scope string_scope.
Open Scope list_scope.
#[local] Set Warnings "-register-all".

(* ------------------------------------------------------------------ *)
(** ** Data *)

(** Values of type [any]: tool arguments and tool payloads.  Numbers are kept
    as their literal, the server never computes with them. *)
Inductive Json : Type :=
| JNull
| JBool (b : bool)
| JNum (literal : string)
| JStr (s : string)
| JArr (items : list Json)
| JObj (fields : list (string * Json)).

(** [{}] *)
Definition emptyObject : Json := JObj [].

(** A thrown value: an [Error] with its [message]. *)
Record JsError : Type := mkError { message : string }.

Record FunctionCall : Type := mkFunctionCall {
  fc_id : option string;
  fc_name : string;            (* a missing name and [""] are both falsy *)
  fc_args : option Json
}.

Record FunctionResponse : Type := mkFunctionResponse {
  fr_name : string;
  fr_response : Json
}.

(** A content part.  The code reads parts through optional chaining
    ([p?.text], [p?.functionCall?.name]), so each variant is an optional
    field. *)
Record Part : Type := mkPart {
  part_text : option string;
  part_functionCall : option FunctionCall;
  part_functionResponse : option FunctionResponse
}.

Definition textPart (t : string) : Part := mkPart (Some t) None None.
Definition functionCallPart (fc : FunctionCall) : Part := mkPart None (Some fc) None.
Definition functionResponsePart (n : string) (payload : Json) : Part :=
  mkPart None None (Some (mkFunctionResponse n payload)).

Record Content : Type := mkContent { role : string; parts : list Part }.

Record Candidate : Type := mkCandidate { content : option Content }.

Record GenerateContentResponse : Type := mkResponse {
  candidates : option (list Candidate)
}.

Record GenerateContentResult : Type := mkResult {
  response : GenerateContentResponse
}.

Record GenerateContentRequest : Type := mkRequest { contents : list Content }.

(** The reply of [client.callTool]: [content] is used only when it is an
    array, and then only the [text] of its first element. *)
Record ContentItem : Type := mkItem { item_text : option string }.
Record CallToolResult : Type := mkCallToolResult {
  ctr_content : option (list ContentItem)
}.

(** [{ name, args }] as pushed on [calls]. *)
Record Call : Type := mkCall { call_name : string; call_args : Json }.

(** The body of [POST /chat] and what [res.json] sends back. *)
Record ChatRequest : Type := mkChatRequest { body_message : option string }.
Record ChatBody : Type := mkBody { reply : option string; error : option string }.
Record HttpResponse : Type := mkHttp { status : Z; body : ChatBody }.

(* ------------------------------------------------------------------ *)
(** ** Effects *)

Inductive Event : Type :=
| EvGenerate (model : string) (req : GenerateContentRequest)
| EvWait (ms : Z)
| EvConnect
| EvCallTool (name : string) (args : Json)
| EvClose.

Definition History : Type := list Event.

(** The collaborators.  Each oracle sees the history up to its call. *)
Record World : Type := mkWorld {
  PRIMARY_MODEL : string;
  FALLBACK_MODEL : string;
  generateContent :
    History -> string -> GenerateContentRequest -> GenerateContentResult + JsError;
  mcp_connect : History -> option JsError;
  mcp_callTool : History -> string -> Json -> CallToolResult + JsError;
  mcp_close : History -> option JsError;
  JSON_parse : string -> Json + JsError
}.

(** A computation that may await, log events and throw. *)
Definition Async (A : Type) : Type := History -> (A + JsError) * History.

Definition ret {A} (a : A) : Async A := fun h => (inl a, h).
Definition throw {A} (e : JsError) : Async A := fun h => (inr e, h).
Definition bind {A B} (m : Async A) (k : A -> Async B) : Async B :=
  fun h => match m h with
           | (inl a, h') => k a h'
           | (inr e, h') => (inr e, h')
           end.
(** [try { m } catch (e) { handler e }] and [m.catch(handler)] *)
Definition catch_ {A} (m : Async A) (handler : JsError -> Async A) : Async A :=
  fun h => match m h with
           | (inl a, h') => (inl a, h')
           | (inr e, h') => handler e h'
           end.

Notation "x <- m ;; k" := (bind m (fun x => k))
  (at level 61, m at next level, right associativity).
Notation "m ;;; k" := (bind m (fun _ => k))
  (at level 61, right associativity).

(* ------------------------------------------------------------------ *)
(** ** Strings *)

(** The line feed of ["\n"]. *)
Definition nl : string := String (ascii_of_nat 10) EmptyString.

(** [s.includes(needle)] *)
Fixpoint includes (s needle : string) : bool :=
  if String.prefix needle s then true
  else match s with
       | EmptyString => false
       | String _ s' => includes s' needle
       end.

(** Truthiness of a string: [Boolean(s)]. *)
Definition truthy (s : string) : bool :=
  match s with EmptyString => false | String _ _ => true end.

(** [xs.join(sep)] *)
Definition join (sep : string) (xs : list string) : string := String.concat sep xs.

(** [s || dflt] on strings *)
Definition orElse (s dflt : string) : string := if truthy s then s else dflt.

(* ------------------------------------------------------------------ *)
(** ** Reading a model response *)

(** [resp?.candidates ?? []] *)
Definition candidatesOf (resp : GenerateContentResponse) : list Candidate :=
  match candidates resp with Some cs => cs | None => [] end.

(** [cand?.content?.parts ?? []] *)
Definition candParts (cand : Candidate) : list Part :=
  match content cand with Some c => parts c | None => [] end.

(** [parts.map((p) => p?.text).filter(Boolean)]: the texts that are present
    and not empty, in order. *)
Definition textsOf (ps : list Part) : list string :=
  flat_map (fun p => match part_text p with
                     | Some t => if truthy t then [t] else []
                     | None => []
                     end) ps.

(** [p.functionCall.args ?? {}] *)
Definition argsOrEmpty (fc : FunctionCall) : Json :=
  match fc_args fc with Some a => a | None => emptyObject end.

(** The calls of one part: [if (p?.functionCall?.name) calls.push(...)]. *)
Definition callsOfPart (p : Part) : list Call :=
  match part_functionCall p with
  | Some fc => if truthy (fc_name fc) then [mkCall (fc_name fc) (argsOrEmpty fc)] else []
  | None => []
  end.

(** The two nested [for] loops that fill [calls]. *)
Definition collectCalls (cands : list Candidate) : list Call :=
  flat_map (fun cand => flat_map callsOfPart (candParts cand)) cands.

(** [extractFunctionCalls]: the same scan, keeping the optional [id]. *)
Definition extractFunctionCalls (resp : GenerateContentResponse)
  : list (option string * Call) :=
  flat_map (fun cand =>
    flat_map (fun p =>
      match part_functionCall p with
      | Some fc => if truthy (fc_name fc)
                   then [(fc_id fc, mkCall (fc_name fc) (argsOrEmpty fc))] else []
      | None => []
      end) (candParts cand)) (candidatesOf resp).

(** The text of one candidate: its texts joined by a line feed. *)
Definition candText (c : Candidate) : string := join nl (textsOf (candParts c)).

(** [extractText]: the loop over the candidates returns at the first one whose
    joined text is truthy. *)
Fixpoint extractText_loop (cands : list Candidate) : string :=
  match cands with
  | [] => "(inget svar)"
  | c :: rest =>
      let text := candText c in
      if truthy text then text else extractText_loop rest
  end.

Definition extractText (resp : GenerateContentResponse) : string :=
  extractText_loop (candidatesOf resp).

(** The extraction inlined in the handler ([text1], [text2]):
    [cands.flatMap(texts).join("\n") || "(inget svar)"]. *)
Definition allTexts (cands : list Candidate) : list string :=
  flat_map (fun cand => textsOf (candParts cand)) cands.

Definition replyText (cands : list Candidate) : string :=
  orElse (join nl (allTexts cands)) "(inget svar)".

(** The conversation turns the handler builds. *)
Definition userTurn (userMessage : string) : Content :=
  mkContent "user" [textPart userMessage].

(** [first.response.candidates?.[0]?.content?.parts ?? []] *)
Definition firstCandidateParts (first : GenerateContentResult) : list Part :=
  match candidates (response first) with
  | Some (c0 :: _) => candParts c0
  | _ => []
  end.

Definition modelTurn (first : GenerateContentResult) : Content :=
  mkContent "model" (firstCandidateParts first).

Definition toolTurn (toolParts : list Part) : Content := mkContent "tool" toolParts.

Definition firstRequest (userMessage : string) : GenerateContentRequest :=
  mkRequest [userTurn userMessage].

Definition secondRequest (userMessage : string) (first : GenerateContentResult)
    (toolParts : list Part) : GenerateContentRequest :=
  mkRequest [userTurn userMessage; modelTurn first; toolTurn toolParts].

Section Server.

Variable w : World.

(* ------------------------------------------------------------------ *)
(** ** The calls to the collaborators *)

Definition model_generateContent (model : string) (args : GenerateContentRequest)
  : Async GenerateContentResult :=
  fun h => (generateContent w h model args, h ++ [EvGenerate model args]).

(** [wait(ms)] *)
Definition wait (ms : Z) : Async unit := fun h => (inl tt, h ++ [EvWait ms]).

Definition client_connect : Async unit :=
  fun h => (match mcp_connect w h with None => inl tt | Some e => inr e end,
            h ++ [EvConnect]).

Definition client_callTool (name : string) (args : Json) : Async CallToolResult :=
  fun h => (mcp_callTool w h name args, h ++ [EvCallTool name args]).

Definition client_close : Async unit :=
  fun h => (match mcp_close w h with None => inl tt | Some e => inr e end,
            h ++ [EvClose]).

(* ------------------------------------------------------------------ *)
(** ** [callMcpGetPrices] *)

(** [Array.isArray(res?.content) ? res.content[0]?.text : undefined] *)
Definition contentText (res : CallToolResult) : option string :=
  match ctr_content res with
  | Some (item :: _) => item_text item
  | _ => None
  end.

(** [if (!text) throw new Error(...); return JSON.parse(text);] *)
Definition decodePayload (res : CallToolResult) : Json + JsError :=
  match contentText res with
  | Some t =>
      if truthy t then JSON_parse w t
      else inr (mkError "Oväntat MCP-svar (saknar content[0].text)")
  | None => inr (mkError "Oväntat MCP-svar (saknar content[0].text)")
  end.

(** Return or throw, without touching the outside. *)
Definition fromResult {A} (r : A + JsError) : Async A := fun h => (r, h).

Definition callMcpGetPrices (args : Json) : Async Json :=
  client_connect ;;;
  res <- client_callTool "elpris.getPrices" args ;;
  client_close ;;;
  fromResult (decodePayload res).

(* ------------------------------------------------------------------ *)
(** ** [generateWithRetry] *)

Definition backoff : list Z := [500; 1000; 2000; 4000]%Z.

Definition retriable (e : JsError) : bool :=
  let msg := message e in
  includes msg "503" || includes msg "429" || includes msg "overloaded".

(** The [for] loop: [attempt] is the loop variable and [remaining] the number
    of iterations left, [backoff.length + 1 - attempt]; at [remaining = 0] the
    loop condition [attempt <= backoff.length] is false and the statement after
    the loop runs. *)
Fixpoint retryLoop (modelName : string) (args : GenerateContentRequest)
    (remaining attempt : nat) : Async GenerateContentResult :=
  match remaining with
  | O => throw (mkError "retry exhausted")
  | S remaining' =>
      catch_ (model_generateContent modelName args)
        (fun e =>
           if negb (retriable e) || (attempt =? List.length backoff)%nat then throw e
           else
             wait (nth attempt backoff 0%Z) ;;;
             retryLoop modelName args remaining' (S attempt))
  end.

Definition generateWithRetry (modelName : string) (args : GenerateContentRequest)
  : Async GenerateContentResult :=
  retryLoop modelName args (List.length backoff + 1) 0.

(* ------------------------------------------------------------------ *)
(** ** [POST /chat] *)

(** The loop over [calls] that fills [toolParts]. *)
Fixpoint toolLoop (calls : list Call) (toolParts : list Part) : Async (list Part) :=
  match calls with
  | [] => ret toolParts
  | c :: rest =>
      if (call_name c =? "get_el_price")%string then
        payload <- callMcpGetPrices (call_args c) ;;
        toolLoop rest (toolParts ++ [functionResponsePart (call_name c) payload])
      else toolLoop rest toolParts
  end.

(** One round: [generateWithRetry(PRIMARY_MODEL, args).catch(async () =>
    generateWithRetry(FALLBACK_MODEL, args))], written out twice in the
    handler, once per round, with the same [contents] in both branches. *)
Definition withFallback (args : GenerateContentRequest) : Async GenerateContentResult :=
  catch_ (generateWithRetry (PRIMARY_MODEL w) args)
    (fun _ => generateWithRetry (FALLBACK_MODEL w) args).

Definition ok (text : string) : HttpResponse := mkHttp 200 (mkBody (Some text) None).
Definition failed (err : JsError) : HttpResponse :=
  mkHttp 503 (mkBody None (Some (message err))).

(** [req.body?.message ?? ""] *)
Definition messageOf (req : ChatRequest) : string :=
  match body_message req with Some m => m | None => "" end.

(** The [try] block of the handler. *)
Definition handleTurn (req : ChatRequest) : Async HttpResponse :=
  let userMessage := messageOf req in
  first <- withFallback (firstRequest userMessage) ;;
  let cands := candidatesOf (response first) in
  let calls := collectCalls cands in
  if (0 <? List.length calls)%nat then
    toolParts <- toolLoop calls [] ;;
    second <- withFallback (secondRequest userMessage first toolParts) ;;
    ret (ok (replyText (candidatesOf (response second))))
  else
    ret (ok (replyText cands)).

(** The whole handler: the [catch] turns whatever was thrown into a 503. *)
Definition postChat (req : ChatRequest) (h : History) : HttpResponse * History :=
  match handleTurn req h with
  | (inl res, h') => (res, h')
  | (inr err, h') => (failed err, h')
  end.

End Server.

(* ------------------------------------------------------------------ *)
(** ** Reading a history *)

Definition isGenerate (ev : Event) : bool :=
  match ev with EvGenerate _ _ => true | _ => false end.

(** How many times the model was called. *)
Definition generateCount (h : History) : nat := List.length (filter isGenerate h).

(** The delays slept, in order. *)
Definition waitsOf (h : History) : list Z :=
  flat_map (fun ev => match ev with EvWait ms => [ms] | _ => [] end) h.

(** The events of the tool connection. *)
Definition isMcp (ev : Event) : bool :=
  match ev with EvConnect | EvCallTool _ _ | EvClose => true | _ => false end.

(** What [k] failed attempts leave in the history, from loop index [a] on:
    a call and the sleep that follows it, per attempt. *)
Definition traceFrom (model : string) (args : GenerateContentRequest) (a k : nat)
  : History :=
  flat_map (fun d => [EvGenerate model args; EvWait d]) (firstn k (skipn a backoff)).

Definition attemptsTrace (model : string) (args : GenerateContentRequest) (k : nat)
  : History := traceFrom model args 0 k.

(** The recognised tool. *)
Definition recognized (c : Call) : bool := (call_name c =? "get_el_price")%string.

(** A [ToolCallResult]: the payload the bridge returned for one call. *)
Record ToolCallResult : Type := mkToolCallResult {
  tcr_name : string;
  tcr_response : Json
}.

Definition partOfResult (r : ToolCallResult) : Part :=
  functionResponsePart (tcr_name r) (tcr_response r).

(** The tool loop seen as the spec describes it: run the bridge on each
    recognised call, in order, and collect one result per call. *)
Fixpoint collectResults (w : World) (calls : list Call) : Async (list ToolCallResult) :=
  match calls with
  | [] => ret []
  | c :: rest =>
      if recognized c then
        payload <- callMcpGetPrices w (call_args c) ;;
        rs <- collectResults w rest ;;
        ret (mkToolCallResult (call_name c) payload :: rs)
      else collectResults w rest
  end.

(* ------------------------------------------------------------------ *)
(** ** Scripted worlds, for running the server on concrete inputs *)

Definition toolCallCount (h : History) : nat :=
  List.length (filter (fun ev => match ev with EvCallTool _ _ => true | _ => false end) h).

(** The k-th call to the model gets the k-th entry of [gens], the k-th tool
    call the k-th entry of [tools]; connecting and closing succeed and the
    payload text is taken as a JSON string. *)
Definition scripted (gens : list (GenerateContentResult + JsError))
    (tools : list (CallToolResult + JsError)) : World :=
  {| PRIMARY_MODEL := "gemini-1.5-flash";
     FALLBACK_MODEL := "gemini-1.5-flash-8b";
     generateContent := fun h _ _ =>
       nth (generateCount h) gens (inr (mkError "script exhausted"));
     mcp_connect := fun _ => None;
     mcp_callTool := fun h _ _ =>
       nth (toolCallCount h) tools (inr (mkError "script exhausted"));
     mcp_close := fun _ => None;
     JSON_parse := fun t => inl (JStr t) |}.

Definition answer (ps : list Part) : GenerateContentResult + JsError :=
  inl (mkResult (mkResponse (Some [mkCandidate (Some (mkContent "model" ps))]))).

Definition overloaded : GenerateContentResult + JsError :=
  inr (mkError "[503 Service Unavailable] The model is overloaded.").

Definition badKey : GenerateContentResult + JsError :=
  inr (mkError "[400 Bad Request] API key not valid.").

Definition priceCall (area : string) : Part :=
  functionCallPart (mkFunctionCall None "get_el_price" (Some (JObj [("area", JStr area)]))).

Definition toolText (t : string) : CallToolResult + JsError :=
  inl (mkCallToolResult (Some [mkItem (Some t)])).

(** A reply without text and without tool call. *)
Definition silentWorld : World := scripted [answer []] [].

(** A call to a tool the server does not know, then a text. *)
Definition weatherCall : Part :=
  functionCallPart (mkFunctionCall None "get_weather" (Some (JObj [("city", JStr "Lund")]))).

Definition unknownToolWorld : World :=
  scripted [answer [weatherCall]; answer [textPart "Jag kan bara svara om elpriser."]] [].

(** The tool endpoint accepts the connection and then fails the call. *)
Definition brokenToolWorld : World :=
  scripted [answer [priceCall "SE3"]] [inr (mkError "fetch failed")].

(** The tool answers without a text element. *)
Definition malformedToolWorld : World :=
  scripted [answer [priceCall "SE3"]] [inl (mkCallToolResult (Some []))].

(** Every turn of every request in the history has at least one part. *)
Definition turnNonEmpty (c : Content) : bool :=
  match parts c with [] => false | _ :: _ => true end.

Definition turnsNonEmpty (h : History) : bool :=
  forallb (fun ev => match ev with
                     | EvGenerate _ args => forallb turnNonEmpty (contents args)
                     | _ => true
                     end) h.


(* ------------------------------------------------------------------ *)
(** ** The MCP server (the module that registers [elpris.getPrices]) *)

Inductive Area : Type := SE1 | SE2 | SE3 | SE4.

Definition areaName (a : Area) : string :=
  match a with SE1 => "SE1" | SE2 => "SE2" | SE3 => "SE3" | SE4 => "SE4" end.

(** [String(n)] and [`${n}`] for an integer [n]. *)
Definition showZ (z : Z) : string :=
  DecimalString.NilZero.string_of_int (Z.to_int z).

(** [s.split(sep)] for a separator of one character. *)
Fixpoint split (sep : ascii) (s : string) : list string :=
  match s with
  | EmptyString => [EmptyString]
  | String c s' =>
      if Ascii.eqb c sep then EmptyString :: split sep s'
      else match split sep s' with
           | seg :: segs => String c seg :: segs
           | [] => [String c EmptyString]
           end
  end.

(** A destructured array element inside a template literal: a missing one is
    [undefined] and prints as such. *)
Definition interpolate (o : option string) : string :=
  match o with Some s => s | None => "undefined" end.

Definition toApiUrl (date : string) (area : Area) : string :=
  let segs := split "-" date in
  let y := nth_error segs 0 in
  let m := nth_error segs 1 in
  let d := nth_error segs 2 in
  ("https://www.elprisetjustnu.se/api/v1/prices/" ++ interpolate y ++ "/"
   ++ interpolate m ++ "-" ++ interpolate d ++ "_" ++ areaName area ++ ".json")%string.

(** The first [n] characters of [pad] repeated; [rest] is what is left of the
    current copy. *)
Fixpoint fill (n : nat) (pad rest : string) : string :=
  match n with
  | O => EmptyString
  | S n' =>
      match rest with
      | String c rest' => String c (fill n' pad rest')
      | EmptyString =>
          match pad with
          | String c pad' => String c (fill n' pad pad')
          | EmptyString => EmptyString
          end
      end
  end.

(** [s.padStart(target, pad)] *)
Definition padStart (target : nat) (pad : string) (s : string) : string :=
  if (target <=? String.length s)%nat then s
  else (fill (target - String.length s) pad pad ++ s)%string.

(** What the code reads off the [Date] it builds for Europe/Stockholm. *)
Record Clock : Type := mkClock { getFullYear : Z; getMonth : Z; getDate : Z }.

(** The date of the clock as [`${y}-${m}-${d}`]; the browser calls it
    [todaySthlm]. *)
Definition todaySthlm (now : Clock) : string :=
  let y := getFullYear now in
  let m := padStart 2 "0" (showZ (getMonth now + 1)) in
  let d := padStart 2 "0" (showZ (getDate now)) in
  (showZ y ++ "-" ++ m ++ "-" ++ d)%string.

Definition toYyyyMmDd (now : Clock) (dateLike : option string) : string :=
  match dateLike with
  | Some s => if truthy s then s else todaySthlm now
  | None => todaySthlm now
  end.

(** [\d] *)
Definition isDigit (c : ascii) : bool :=
  ((48 <=? nat_of_ascii c) && (nat_of_ascii c <=? 57))%nat.

(** The regular expression of the input schema, [/^\d{4}-\d{2}-\d{2}$/]. *)
Definition isDateShape (s : string) : bool :=
  match list_ascii_of_string s with
  | [y1; y2; y3; y4; h1; m1; m2; h2; d1; d2] =>
      isDigit y1 && isDigit y2 && isDigit y3 && isDigit y4 && Ascii.eqb h1 "-"
      && isDigit m1 && isDigit m2 && Ascii.eqb h2 "-" && isDigit d1 && isDigit d2
  | _ => false
  end.

(** [n] characters, all digits. *)
Definition digits (n : nat) (s : string) : bool :=
  (String.length s =? n)%nat && forallb isDigit (list_ascii_of_string s).

Section Prices.

(** The numbers of the price rows are floating-point values; the server only
    hands them to [Math.min], [Math.max], [+] and [/], which are taken as
    given. *)
Variable number : Type.
Variable num_zero : number.
Variable num_add : number -> number -> number.
Variable num_div : number -> nat -> number.
Variable Math_min : list number -> number.
Variable Math_max : list number -> number.

Record ApiRow : Type := mkApiRow {
  SEK_per_kWh : number;
  EUR_per_kWh : number;
  EXR : number;
  time_start : string;
  time_end : string
}.

(** What [res.json()] resolves to: an array of rows, or something else. *)
Inductive FetchedJson : Type :=
| NotAnArray
| RowArray (rows : list ApiRow).

Record FetchResponse : Type := mkFetchResponse {
  resp_ok : bool;
  resp_status : Z;
  resp_json : FetchedJson + JsError
}.

(** [fetch(url, ...)], by its outcome for each URL. *)
Variable fetch : string -> FetchResponse + JsError.

Definition getPrices (date : string) (area : Area) : list ApiRow + JsError :=
  let url := toApiUrl date area in
  match fetch url with
  | inr e => inr e
  | inl res =>
      if negb (resp_ok res) then
        inr (mkError ("Fetch misslyckades (" ++ showZ (resp_status res) ++ ") för "
                      ++ date ++ " " ++ areaName area)%string)
      else
        match resp_json res with
        | inr e => inr e
        | inl NotAnArray =>
            inr (mkError ("Tomt svar för " ++ date ++ " " ++ areaName area)%string)
        | inl (RowArray []) =>
            inr (mkError ("Tomt svar för " ++ date ++ " " ++ areaName area)%string)
        | inl (RowArray (r :: rs)) => inl (r :: rs)
        end
  end.

(** [new Date(s)] as its time value; [None] is an invalid date, with which
    every comparison is false. *)
Variable Date_parse : string -> option Z.

(** [now >= start && now < end] *)
Definition inSlot (now : Z) (r : ApiRow) : bool :=
  match Date_parse (time_start r) with
  | Some start =>
      (start <=? now)%Z &&
      match Date_parse (time_end r) with
      | Some end_ => (now <? end_)%Z
      | None => false
      end
  | None => false
  end.

Record Summary : Type := mkSummary {
  min_SEK_per_kWh : number;
  max_SEK_per_kWh : number;
  avg_SEK_per_kWh : number;
  currentPrice_SEK_per_kWh : option number;
  current_slot : option (string * string);
  count : nat
}.

Definition summarize (now : Z) (rows : list ApiRow) : Summary :=
  let prices := map SEK_per_kWh rows in
  let current := find (inSlot now) rows in
  {| min_SEK_per_kWh := Math_min prices;
     max_SEK_per_kWh := Math_max prices;
     avg_SEK_per_kWh := num_div (fold_left num_add prices num_zero) (List.length prices);
     currentPrice_SEK_per_kWh := option_map SEK_per_kWh current;
     current_slot := option_map (fun r => (time_start r, time_end r)) current;
     count := List.length rows |}.

Record Payload : Type := mkPayload {
  payload_date : string;
  payload_area : Area;
  payload_source : string;
  payload_summary : Summary;
  first_3_rows : list ApiRow
}.

(** [JSON.stringify(payload, null, 2)] *)
Variable JSON_stringify : Payload -> string.

(** The callback registered for [elpris.getPrices]; its reply is a content
    array of one text element.  The payload is returned beside the reply so
    that statements can name it. *)
Definition getPricesTool (clock : Clock) (now : Z)
    (date : option string) (area : option Area) : (Payload * CallToolResult) + JsError :=
  let d := toYyyyMmDd clock date in
  let a := match area with Some a => a | None => SE3 end in
  match getPrices d a with
  | inr e => inr e
  | inl rows =>
      let summary := summarize now rows in
      let payload :=
        {| payload_date := d;
           payload_area := a;
           payload_source := toApiUrl d a;
           payload_summary := summary;
           first_3_rows := firstn 3 rows |} in
      inl (payload, mkCallToolResult (Some [mkItem (Some (JSON_stringify payload))]))
  end.

End Prices.

Arguments mkApiRow {number}.
Arguments SEK_per_kWh {number}.
Arguments EUR_per_kWh {number}.
Arguments EXR {number}.
Arguments time_start {number}.
Arguments time_end {number}.
Arguments NotAnArray {number}.
Arguments RowArray {number}.
Arguments mkFetchResponse {number}.
Arguments resp_ok {number}.
Arguments resp_status {number}.
Arguments resp_json {number}.
Arguments getPrices {number}.
Arguments inSlot {number}.
Arguments mkSummary {number}.
Arguments min_SEK_per_kWh {number}.
Arguments max_SEK_per_kWh {number}.
Arguments avg_SEK_per_kWh {number}.
Arguments currentPrice_SEK_per_kWh {number}.
Arguments current_slot {number}.
Arguments count {number}.
Arguments summarize {number}.
Arguments mkPayload {number}.
Arguments payload_date {number}.
Arguments payload_area {number}.
Arguments payload_source {number}.
Arguments payload_summary {number}.
Arguments first_3_rows {number}.
Arguments getPricesTool {number}.

(** The CORS middleware.  [req.header(name)] is the lookup of a request
    header; the response headers are a map that [res.setHeader] overwrites. *)
Record ServerRequest : Type := mkServerRequest {
  req_method : string;
  req_header : string -> option string
}.

Definition Headers : Type := string -> option string.

Definition setHeader (name value : string) (hs : Headers) : Headers :=
  fun n => if String.eqb n name then Some value else hs n.

(** The middleware ends the response ([res.sendStatus]) or calls [next()]. *)
Inductive MiddlewareResult : Type :=
| Responded (code : Z) (headers : Headers)
| Next (headers : Headers).

Definition headersOf (r : MiddlewareResult) : Headers :=
  match r with Responded _ hs => hs | Next hs => hs end.

Definition defaultAllowed : string :=
  "content-type, mcp-session-id, mcp-protocol-version".

Definition cors (req : ServerRequest) (hs : Headers) : MiddlewareResult :=
  let origin := req_header req "Origin" in
  let allow :=
    match origin with
    | Some o => String.eqb o "http://localhost:5173" || String.eqb o "http://127.0.0.1:5173"
    | None => false
    end in
  let hs1 :=
    match origin with
    | Some o =>
        if allow && truthy o then
          setHeader "Vary" "Origin, Access-Control-Request-Headers"
            (setHeader "Access-Control-Allow-Origin" o hs)
        else hs
    | None => hs
    end in
  let hs2 := setHeader "Access-Control-Allow-Methods" "POST, OPTIONS" hs1 in
  let requested := req_header req "Access-Control-Request-Headers" in
  let hs3 :=
    setHeader "Access-Control-Allow-Headers"
      (match requested with Some r => r | None => defaultAllowed end) hs2 in
  let hs4 := setHeader "Access-Control-Expose-Headers" "Mcp-Session-Id" hs3 in
  if String.eqb (req_method req) "OPTIONS" then Responded 204 hs4 else Next hs4.

(* ------------------------------------------------------------------ *)
(** ** The browser client (the React component [App]) *)

(** The state of the component: the form, and what [fetchPrices] sets.
    [data] holds a JavaScript value, [null] being [JNull]: a payload that
    parses to [null] leaves the same state as [setData(null)].  [error] is a
    string or [null]. *)
Record UiState : Type := mkUi {
  ui_date : string;
  ui_area : Area;
  ui_loading : bool;
  ui_error : option string;
  ui_data : Json
}.

(** [if (!text) throw new Error(...); JSON.parse(text)] *)
Definition parseContent (w : World) (res : CallToolResult) : Json + JsError :=
  match contentText res with
  | Some t =>
      if truthy t then JSON_parse w t
      else inr (mkError "Oväntat MCP-svar: content saknas")
  | None => inr (mkError "Oväntat MCP-svar: content saknas")
  end.

(** [{ date, area }] *)
Definition formArguments (ui : UiState) : Json :=
  JObj [("date", JStr (ui_date ui)); ("area", JStr (areaName (ui_area ui)))].

(** The [try] block up to [JSON.parse]. *)
Definition fetchPayload (w : World) (ui : UiState) : Async Json :=
  client_connect w ;;;
  res <- client_callTool w "elpris.getPrices" (formArguments ui) ;;
  fromResult (parseContent w res).

(** [fetchPrices]: the three resets, the [try] block, whose last two
    statements are [setData(parsed)] and [client.close()], the [catch] that
    sets the error, and the [finally] that clears [loading]. *)
Definition fetchPrices (w : World) (ui : UiState) (h : History) : UiState * History :=
  let ui0 := mkUi (ui_date ui) (ui_area ui) true None JNull in
  match fetchPayload w ui h with
  | (inr e, h1) =>
      (mkUi (ui_date ui0) (ui_area ui0) false (Some (message e)) (ui_data ui0), h1)
  | (inl parsed, h1) =>
      let ui1 := mkUi (ui_date ui0) (ui_area ui0) (ui_loading ui0) (ui_error ui0)
                      parsed in
      match client_close w h1 with
      | (inl _, h2) =>
          (mkUi (ui_date ui1) (ui_area ui1) false (ui_error ui1) (ui_data ui1), h2)
      | (inr e, h2) =>
          (mkUi (ui_date ui1) (ui_area ui1) false (Some (message e)) (ui_data ui1), h2)
      end
  end.

(** Sample data for running the server functions: prices in öre, instants
    in whole hours. *)
Definition sampleRows : list (ApiRow Z) :=
  [ mkApiRow 52%Z 5%Z 11%Z "00:00" "01:00";
    mkApiRow 71%Z 6%Z 11%Z "01:00" "02:00";
    mkApiRow 64%Z 6%Z 11%Z "02:00" "03:00";
    mkApiRow 90%Z 8%Z 11%Z "03:00" "04:00" ].

Definition sampleParse (s : string) : option Z :=
  if String.eqb s "00:00" then Some 0%Z
  else if String.eqb s "01:00" then Some 60%Z
  else if String.eqb s "02:00" then Some 120%Z
  else if String.eqb s "03:00" then Some 180%Z
  else if String.eqb s "04:00" then Some 240%Z
  else None.

Definition sampleFetch (url : string) : FetchResponse Z + JsError :=
  if String.eqb url "https://www.elprisetjustnu.se/api/v1/prices/2025/03-07_SE3.json"
  then inl (mkFetchResponse true 200 (inl (RowArray sampleRows)))
  else inl (mkFetchResponse false 404 (inl NotAnArray)).

Definition sampleStringify (p : Payload Z) : string :=
  (payload_date p ++ " " ++ areaName (payload_area p))%string.

Definition sampleRequest (method : string) (origin : option string) : ServerRequest :=
  mkServerRequest method
    (fun n => if String.eqb n "Origin" then origin else None).

Definition noHeaders : Headers := fun _ => None.

Definition sampleUi : UiState :=
  mkUi "2025-03-07" SE3 false (Some "gammalt fel") (JStr "gammal data").

(** A tool whose payload is the JSON text [null], with a [JSON.parse] that
    reads it as such. *)
Definition nullPayloadWorld : World :=
  {| PRIMARY_MODEL := "gemini-1.5-flash";
     FALLBACK_MODEL := "gemini-1.5-flash-8b";
     generateContent := fun _ _ _ => inr (mkError "not used");
     mcp_connect := fun _ => None;
     mcp_callTool := fun _ _ _ => toolText "null";
     mcp_close := fun _ => None;
     JSON_parse := fun t => if String.eqb t "null" then inl JNull else inl (JStr t) |}.

(** A response with two candidates that both carry text. *)
Definition twoCandidates : GenerateContentResult :=
  mkResult (mkResponse (Some [mkCandidate (Some (mkContent "model" [textPart "a"]));
                              mkCandidate (Some (mkContent "model" [textPart "b"]))])).

Definition twoCandidatesWorld : World := scripted [inl twoCandidates] [].

(** The time slept, in ms. *)
Definition totalWait (h : History) : Z := fold_right Z.add 0%Z (waitsOf h).

(** What one successful run of the bridge leaves in the history. *)
Definition bridgeTrace (args : Json) : History :=
  [EvConnect; EvCallTool "elpris.getPrices" args; EvClose].

(** An event of a round on [args]: a call to the model with these [args], or a
    sleep. *)
Definition modelEvent (args : GenerateContentRequest) (ev : Event) : Prop :=
  (exists m, ev = EvGenerate m args) \/ (exists ms, ev = EvWait ms).

(* ------------------------------------------------------------------ *)
(** ** The monad *)

Lemma bind_inl {A B} (m : Async A) (k : A -> Async B) h a h' :
  m h = (inl a, h') -> bind m k h = k a h'.
Proof. unfold bind; intros ->; reflexivity. Qed.

Lemma bind_inr {A B} (m : Async A) (k : A -> Async B) h e h' :
  m h = (inr e, h') -> bind m k h = (inr e, h').
Proof. unfold bind; intros ->; reflexivity. Qed.

Lemma catch_inl {A} (m : Async A) (hd : JsError -> Async A) h a h' :
  m h = (inl a, h') -> catch_ m hd h = (inl a, h').
Proof. unfold catch_; intros ->; reflexivity. Qed.

Lemma catch_inr {A} (m : Async A) (hd : JsError -> Async A) h e h' :
  m h = (inr e, h') -> catch_ m hd h = hd e h'.
Proof. unfold catch_; intros ->; reflexivity. Qed.

(* ------------------------------------------------------------------ *)
(** ** Retry with backoff *)

Section Retry.

Variable w : World.
Variable model : string.
Variable args : GenerateContentRequest.

Lemma traceFrom_0 a : traceFrom model args a 0 = [].
Proof. reflexivity. Qed.

Lemma traceFrom_S a k :
  a < List.length backoff ->
  traceFrom model args a (S k)
  = [EvGenerate model args; EvWait (nth a backoff 0%Z)] ++ traceFrom model args (S a) k.
Proof.
  intros Ha. unfold traceFrom.
  do 4 (destruct a as [|a]; [reflexivity|]).
  simpl in Ha. lia.
Qed.

(** One iteration of the loop, by the answer of the model. *)
Lemma retryLoop_success rem a h r :
  generateContent w h model args = inl r ->
  retryLoop w model args (S rem) a h = (inl r, h ++ [EvGenerate model args]).
Proof.
  intros E. cbn [retryLoop]. unfold catch_, model_generateContent. rewrite E. reflexivity.
Qed.

Lemma retryLoop_rethrow rem a h e :
  generateContent w h model args = inr e ->
  retriable e = false \/ a = List.length backoff ->
  retryLoop w model args (S rem) a h = (inr e, h ++ [EvGenerate model args]).
Proof.
  intros E C. cbn [retryLoop]. unfold catch_, model_generateContent. rewrite E.
  destruct C as [-> | ->]; [reflexivity|].
  rewrite Nat.eqb_refl, orb_true_r. reflexivity.
Qed.

Lemma retryLoop_again rem a h e :
  generateContent w h model args = inr e ->
  retriable e = true -> a <> List.length backoff ->
  retryLoop w model args (S rem) a h
  = retryLoop w model args rem (S a) (h ++ [EvGenerate model args; EvWait (nth a backoff 0%Z)]).
Proof.
  intros E R Ha. cbn [retryLoop]. unfold catch_, model_generateContent. rewrite E, R.
  apply Nat.eqb_neq in Ha. rewrite Ha. cbn [negb orb].
  unfold bind, wait. rewrite <- app_assoc. reflexivity.
Qed.

(** The shape of every run of the loop: some number [n] of attempts failed
    with a retriable error and were followed by their sleep, and the result is
    the answer of the model to the attempt after them, which is final because
    it is a success, or not retriable, or the last attempt allowed. *)
Lemma retryLoop_shape rem : forall a h,
  a + S rem = List.length backoff + 1 ->
  exists n,
    n <= rem /\
    retryLoop w model args (S rem) a h
    = (generateContent w (h ++ traceFrom model args a n) model args,
       h ++ traceFrom model args a n ++ [EvGenerate model args]) /\
    (forall k, k < n ->
       exists e, generateContent w (h ++ traceFrom model args a k) model args = inr e
                 /\ retriable e = true) /\
    (n < rem ->
       forall e, generateContent w (h ++ traceFrom model args a n) model args = inr e ->
                 retriable e = false).
Proof.
  induction rem as [|rem IH]; intros a h Ha; simpl in Ha.
  - exists 0. rewrite traceFrom_0, app_nil_r. simpl app.
    split; [lia|]. split; [|split; [intros k Hk; lia | intros Hk; lia]].
    destruct (generateContent w h model args) as [r|e] eqn:E.
    + now apply retryLoop_success.
    + apply retryLoop_rethrow; [exact E|]. right. simpl. lia.
  - destruct (generateContent w h model args) as [r|e] eqn:E.
    + exists 0. rewrite traceFrom_0, app_nil_r. simpl app.
      split; [lia|]. split; [|split; [intros k Hk; lia | ]].
      * rewrite E. now apply retryLoop_success.
      * intros _ e. rewrite E. discriminate.
    + destruct (retriable e) eqn:R.
      * assert (Hlt : a < List.length backoff) by (simpl; lia).
        destruct (IH (S a) (h ++ [EvGenerate model args; EvWait (nth a backoff 0%Z)]))
          as (n & Hn & Hrun & Hfail & Hstop); [simpl; lia|].
        exists (S n). split; [lia|].
        rewrite traceFrom_S by exact Hlt.
        split; [|split].
        -- rewrite (retryLoop_again (S rem) a h e E R) by lia.
           rewrite Hrun. rewrite <- !app_assoc. reflexivity.
        -- intros [|k] Hk.
           ++ exists e. rewrite traceFrom_0, app_nil_r. auto.
           ++ rewrite traceFrom_S by exact Hlt. rewrite app_assoc.
              apply Hfail. lia.
        -- intros Hk e'. rewrite app_assoc. apply Hstop. lia.
      * exists 0. rewrite traceFrom_0, app_nil_r. simpl app.
        split; [lia|]. split; [|split; [intros k Hk; lia | ]].
        -- rewrite E. apply retryLoop_rethrow; auto.
        -- intros _ e'. rewrite E. congruence.
Qed.

Lemma generateWithRetry_shape h :
  exists n,
    n <= List.length backoff /\
    generateWithRetry w model args h
    = (generateContent w (h ++ attemptsTrace model args n) model args,
       h ++ attemptsTrace model args n ++ [EvGenerate model args]) /\
    (forall k, k < n ->
       exists e, generateContent w (h ++ attemptsTrace model args k) model args = inr e
                 /\ retriable e = true) /\
    (n < List.length backoff ->
       forall e, generateContent w (h ++ attemptsTrace model args n) model args = inr e ->
                 retriable e = false).
Proof.
  unfold generateWithRetry, attemptsTrace.
  apply (retryLoop_shape (List.length backoff) 0 h). simpl. reflexivity.
Qed.

(** Conversely, the answers of the model fix the run: [N] retriable failures
    and then a final answer. *)
Lemma generateWithRetry_run h N :
  N <= List.length backoff ->
  (forall k, k < N ->
     exists e, generateContent w (h ++ attemptsTrace model args k) model args = inr e
               /\ retriable e = true) ->
  (N < List.length backoff ->
     forall e, generateContent w (h ++ attemptsTrace model args N) model args = inr e ->
               retriable e = false) ->
  generateWithRetry w model args h
  = (generateContent w (h ++ attemptsTrace model args N) model args,
     h ++ attemptsTrace model args N ++ [EvGenerate model args]).
Proof.
  intros HN Hfail Hstop.
  destruct (generateWithRetry_shape h) as (n & Hn & Hrun & Hf & Hs).
  destruct (Nat.lt_trichotomy n N) as [Hlt | [-> | Hgt]]; [| exact Hrun |].
  - destruct (Hfail n Hlt) as (e & E & R).
    rewrite (Hs ltac:(lia) e E) in R. discriminate.
  - destruct (Hf N Hgt) as (e & E & R).
    rewrite (Hstop ltac:(lia) e E) in R. discriminate.
Qed.

Lemma waitsOf_app h1 h2 : waitsOf (h1 ++ h2) = waitsOf h1 ++ waitsOf h2.
Proof. unfold waitsOf. apply flat_map_app. Qed.

Lemma generateCount_app h1 h2 :
  generateCount (h1 ++ h2) = generateCount h1 + generateCount h2.
Proof. unfold generateCount. rewrite filter_app, length_app. reflexivity. Qed.

Lemma waitsOf_traceFrom a k :
  waitsOf (traceFrom model args a k) = firstn k (skipn a backoff).
Proof.
  unfold traceFrom. induction (firstn k (skipn a backoff)) as [|d ds IH];
    [reflexivity|]. simpl. f_equal. exact IH.
Qed.

Lemma generateCount_traceFrom a k :
  generateCount (traceFrom model args a k) = List.length (firstn k (skipn a backoff)).
Proof.
  unfold traceFrom. induction (firstn k (skipn a backoff)) as [|d ds IH];
    [reflexivity|].
  cbn [flat_map]. rewrite generateCount_app, IH. reflexivity.
Qed.

Lemma waitsOf_attempts k :
  waitsOf (attemptsTrace model args k ++ [EvGenerate model args]) = firstn k backoff.
Proof.
  rewrite waitsOf_app. unfold attemptsTrace. rewrite waitsOf_traceFrom.
  simpl. apply app_nil_r.
Qed.

Lemma generateCount_attempts k :
  k <= List.length backoff ->
  generateCount (attemptsTrace model args k ++ [EvGenerate model args]) = k + 1.
Proof.
  intros Hk. rewrite generateCount_app. unfold attemptsTrace.
  rewrite generateCount_traceFrom. cbn [skipn].
  rewrite length_firstn. unfold generateCount. simpl in *. lia.
Qed.

(** The events of a run are calls to this model with these [args], and
    sleeps. *)
Lemma attemptsTrace_events k ev :
  In ev (attemptsTrace model args k ++ [EvGenerate model args]) ->
  ev = EvGenerate model args \/ exists ms, ev = EvWait ms.
Proof.
  intros Hin. apply in_app_or in Hin. destruct Hin as [Hin | [<- | []]]; [|now left].
  unfold attemptsTrace, traceFrom in Hin. apply in_flat_map in Hin.
  destruct Hin as (d & _ & [<- | [<- | []]]); [now left | right; now exists d].
Qed.

End Retry.

(** C3.  [generateWithRetry] against a model that fails with a retriable
    error (a message containing 503, 429 or "overloaded") on its first [N]
    attempts, [N] below the length of the policy, and then succeeds: the
    success is returned and the sleeps are exactly the first [N] delays of
    500, 1000, 2000, 4000 ms, in order.  Whatever the model answers, no run
    makes more than length + 1 attempts; and when all of them fail, the error
    of the last attempt is the one thrown. *)
Theorem generateWithRetry_backoff w model args h :
  (forall N r,
     N < List.length backoff ->
     (forall k, k < N ->
        exists e, generateContent w (h ++ attemptsTrace model args k) model args = inr e
                  /\ retriable e = true) ->
     generateContent w (h ++ attemptsTrace model args N) model args = inl r ->
     exists t,
       generateWithRetry w model args h = (inl r, h ++ t) /\
       waitsOf t = firstn N [500; 1000; 2000; 4000]%Z /\
       List.length (waitsOf t) = N /\
       generateCount t = N + 1) /\
  (exists t,
     snd (generateWithRetry w model args h) = h ++ t /\
     generateCount t <= List.length backoff + 1) /\
  (forall e,
     (forall k, k < List.length backoff ->
        exists e', generateContent w (h ++ attemptsTrace model args k) model args = inr e'
                   /\ retriable e' = true) ->
     generateContent w (h ++ attemptsTrace model args (List.length backoff)) model args
       = inr e ->
     exists t,
       generateWithRetry w model args h = (inr e, h ++ t) /\
       generateCount t = List.length backoff + 1 /\
       waitsOf t = backoff).
Proof.
  split; [|split].
  - intros N r HN Hfail Hok.
    exists (attemptsTrace model args N ++ [EvGenerate model args]).
    split; [|split; [|split]].
    + rewrite <- Hok. apply generateWithRetry_run; [lia | exact Hfail |].
      intros _ e. rewrite Hok. discriminate.
    + apply waitsOf_attempts.
    + rewrite waitsOf_attempts, length_firstn. lia.
    + apply generateCount_attempts. lia.
  - destruct (generateWithRetry_shape w model args h) as (n & Hn & Hrun & _).
    exists (attemptsTrace model args n ++ [EvGenerate model args]).
    rewrite Hrun. split; [reflexivity|].
    rewrite generateCount_attempts by exact Hn. lia.
  - intros e Hfail Hlast.
    exists (attemptsTrace model args (List.length backoff) ++ [EvGenerate model args]).
    split; [|split].
    + rewrite <- Hlast. apply generateWithRetry_run; [lia | exact Hfail | lia].
    + apply generateCount_attempts. lia.
    + rewrite waitsOf_attempts. reflexivity.
Qed.

(** Two overloaded answers and then a reply: two sleeps, 500 and 1000 ms.
    Five overloaded answers: the fifth error is thrown after the four
    sleeps. *)
Lemma generateWithRetry_backoff_witness :
  (exists t,
     generateWithRetry (scripted [overloaded; overloaded; answer [textPart "hej"]] [])
       "m" (firstRequest "x") []
     = (answer [textPart "hej"], [] ++ t) /\
     waitsOf t = [500; 1000]%Z /\ List.length (waitsOf t) = 2 /\ generateCount t = 3) /\
  (exists t,
     generateWithRetry
       (scripted [overloaded; overloaded; overloaded; overloaded; overloaded] [])
       "m" (firstRequest "x") []
     = (overloaded, [] ++ t) /\ generateCount t = 5 /\ waitsOf t = backoff).
Proof.
  split.
  - apply (proj1 (generateWithRetry_backoff
                    (scripted [overloaded; overloaded; answer [textPart "hej"]] [])
                    "m" (firstRequest "x") []) 2).
    + simpl. lia.
    + intros k Hk. exists (mkError "[503 Service Unavailable] The model is overloaded.").
      destruct k as [|[|k]]; [split; reflexivity | split; reflexivity | lia].
    + reflexivity.
  - apply (proj2 (proj2 (generateWithRetry_backoff
                    (scripted [overloaded; overloaded; overloaded; overloaded; overloaded] [])
                    "m" (firstRequest "x") []))).
    + intros k Hk. exists (mkError "[503 Service Unavailable] The model is overloaded.").
      destruct k as [|[|[|[|k]]]]; [split; reflexivity .. | simpl in Hk; lia].
    + reflexivity.
Defined.

(* ------------------------------------------------------------------ *)
(** ** What each step adds to the history *)

Lemma attemptsTrace_head model args n :
  exists t, attemptsTrace model args n ++ [EvGenerate model args]
            = EvGenerate model args :: t.
Proof.
  destruct n as [|n]; [now exists []|].
  unfold attemptsTrace. rewrite traceFrom_S by (simpl; lia).
  eexists. reflexivity.
Qed.

Lemma attemptsTrace_modelEvents model args n :
  Forall (modelEvent args) (attemptsTrace model args n ++ [EvGenerate model args]).
Proof.
  apply Forall_forall. intros ev Hin.
  destruct (attemptsTrace_events model args n ev Hin) as [-> | Hw].
  - left. now exists model.
  - now right.
Qed.

Section Rounds.

Variable w : World.

Lemma withFallback_primary_ok args h r h1 :
  generateWithRetry w (PRIMARY_MODEL w) args h = (inl r, h1) ->
  withFallback w args h = (inl r, h1).
Proof. apply catch_inl. Qed.

Lemma withFallback_primary_failed args h e h1 :
  generateWithRetry w (PRIMARY_MODEL w) args h = (inr e, h1) ->
  withFallback w args h = generateWithRetry w (FALLBACK_MODEL w) args h1.
Proof. intros H. unfold withFallback. now rewrite (catch_inr _ _ _ _ _ H). Qed.

(** A round begins with a call to the primary model and only ever calls the
    model with the [args] it was given. *)
Lemma withFallback_shape args h :
  exists t,
    snd (withFallback w args h) = h ++ t /\
    (exists t', t = EvGenerate (PRIMARY_MODEL w) args :: t') /\
    Forall (modelEvent args) t.
Proof.
  destruct (generateWithRetry_shape w (PRIMARY_MODEL w) args h) as (n & _ & Hrun & _).
  destruct (generateContent w (h ++ attemptsTrace (PRIMARY_MODEL w) args n)
              (PRIMARY_MODEL w) args) as [r|e] eqn:E.
  - rewrite (withFallback_primary_ok _ _ _ _ Hrun). eexists. split; [reflexivity|].
    split; [apply attemptsTrace_head | apply attemptsTrace_modelEvents].
  - rewrite (withFallback_primary_failed _ _ _ _ Hrun).
    destruct (generateWithRetry_shape w (FALLBACK_MODEL w) args
                (h ++ attemptsTrace (PRIMARY_MODEL w) args n
                   ++ [EvGenerate (PRIMARY_MODEL w) args])) as (n' & _ & Hrun' & _).
    rewrite Hrun'. cbn [snd].
    exists ((attemptsTrace (PRIMARY_MODEL w) args n ++ [EvGenerate (PRIMARY_MODEL w) args])
            ++ attemptsTrace (FALLBACK_MODEL w) args n'
            ++ [EvGenerate (FALLBACK_MODEL w) args]).
    split; [now rewrite <- !app_assoc|]. split.
    + destruct (attemptsTrace_head (PRIMARY_MODEL w) args n) as (t' & ->).
      eexists. reflexivity.
    + apply Forall_app. split; apply attemptsTrace_modelEvents.
Qed.

(** The bridge, by the answers of the tool endpoint. *)
Lemma callMcpGetPrices_connect_failed args h e :
  mcp_connect w h = Some e ->
  callMcpGetPrices w args h = (inr e, h ++ [EvConnect]).
Proof.
  intros E. unfold callMcpGetPrices, bind, client_connect. rewrite E. reflexivity.
Qed.

Lemma callMcpGetPrices_call_failed args h e :
  mcp_connect w h = None ->
  mcp_callTool w (h ++ [EvConnect]) "elpris.getPrices" args = inr e ->
  callMcpGetPrices w args h
  = (inr e, h ++ [EvConnect; EvCallTool "elpris.getPrices" args]).
Proof.
  intros E1 E2. unfold callMcpGetPrices, bind, client_connect, client_callTool.
  rewrite E1, E2. rewrite <- app_assoc. reflexivity.
Qed.

Lemma callMcpGetPrices_called args h res :
  mcp_connect w h = None ->
  mcp_callTool w (h ++ [EvConnect]) "elpris.getPrices" args = inl res ->
  callMcpGetPrices w args h
  = (match mcp_close w (h ++ [EvConnect; EvCallTool "elpris.getPrices" args]) with
     | Some e => inr e
     | None => decodePayload w res
     end,
     h ++ [EvConnect; EvCallTool "elpris.getPrices" args; EvClose]).
Proof.
  intros E1 E2.
  unfold callMcpGetPrices, bind, client_connect, client_callTool, client_close, fromResult.
  rewrite E1, E2. rewrite <- !app_assoc. cbn [app].
  destruct (mcp_close w _); reflexivity.
Qed.

Lemma callMcpGetPrices_shape args h :
  exists t,
    snd (callMcpGetPrices w args h) = h ++ t /\
    Forall (fun ev => isMcp ev = true) t /\
    (forall n a, In (EvCallTool n a) t -> n = "elpris.getPrices" /\ a = args).
Proof.
  destruct (mcp_connect w h) as [e|] eqn:E1.
  - rewrite (callMcpGetPrices_connect_failed _ _ _ E1). eexists.
    split; [reflexivity|]. split; [repeat constructor|].
    intros n a [H|[]]. discriminate.
  - destruct (mcp_callTool w (h ++ [EvConnect]) "elpris.getPrices" args) as [res|e] eqn:E2.
    + rewrite (callMcpGetPrices_called _ _ _ E1 E2). eexists.
      split; [reflexivity|]. split; [repeat constructor|].
      intros n a [H|[H|[H|[]]]]; try discriminate. inversion H. auto.
    + rewrite (callMcpGetPrices_call_failed _ _ _ E1 E2). eexists.
      split; [reflexivity|]. split; [repeat constructor|].
      intros n a [H|[H|[]]]; try discriminate. inversion H. auto.
Qed.

(** The tool loop skips what it does not recognise. *)
Lemma toolLoop_filter calls : forall acc h,
  toolLoop w calls acc h = toolLoop w (filter recognized calls) acc h.
Proof.
  induction calls as [|c rest IH]; intros acc h; [reflexivity|].
  cbn [toolLoop filter]. unfold recognized at 1.
  destruct (call_name c =? "get_el_price")%string eqn:E.
  - cbn [toolLoop]. rewrite E. unfold bind.
    destruct (callMcpGetPrices w (call_args c) h) as [[payload|e] h']; [apply IH | reflexivity].
  - apply IH.
Qed.

(** The tool loop and the collection of results are the same run. *)
Lemma toolLoop_collect calls : forall acc h,
  toolLoop w calls acc h
  = match collectResults w calls h with
    | (inl rs, h') => (inl (acc ++ map partOfResult rs), h')
    | (inr e, h') => (inr e, h')
    end.
Proof.
  induction calls as [|c rest IH]; intros acc h.
  - simpl. unfold ret. now rewrite app_nil_r.
  - cbn [toolLoop collectResults]. unfold recognized.
    destruct (call_name c =? "get_el_price")%string; [|apply IH].
    unfold bind.
    destruct (callMcpGetPrices w (call_args c) h) as [[payload|e] h']; [|reflexivity].
    rewrite IH.
    destruct (collectResults w rest h') as [[rs|e] h'']; [|reflexivity].
    unfold ret. cbn [map]. rewrite <- app_assoc. reflexivity.
Qed.

(** A result is collected for each recognised call, under its name. *)
Lemma collectResults_names calls : forall h rs h',
  collectResults w calls h = (inl rs, h') ->
  map tcr_name rs = map call_name (filter recognized calls).
Proof.
  induction calls as [|c rest IH]; intros h rs h' H.
  - inversion H. reflexivity.
  - cbn [collectResults filter] in *. destruct (recognized c); [|eauto].
    unfold bind in H.
    destruct (callMcpGetPrices w (call_args c) h) as [[payload|e] h1]; [|discriminate].
    destruct (collectResults w rest h1) as [[rs1|e] h2] eqn:E; [|discriminate].
    inversion H; subst. cbn [map tcr_name]. f_equal. eauto.
Qed.

Lemma collectResults_shape calls : forall h,
  exists t,
    snd (collectResults w calls h) = h ++ t /\
    Forall (fun ev => isMcp ev = true) t /\
    (forall n a, In (EvCallTool n a) t ->
       n = "elpris.getPrices" /\
       exists c, In c calls /\ call_name c = "get_el_price" /\ a = call_args c).
Proof.
  induction calls as [|c rest IH]; intros h.
  - exists []. simpl. rewrite app_nil_r. split; [reflexivity|]. split; [constructor|].
    intros n a [].
  - cbn [collectResults]. unfold recognized.
    destruct (call_name c =? "get_el_price")%string eqn:Ec.
    + destruct (callMcpGetPrices_shape (call_args c) h) as (t1 & H1 & F1 & C1).
      unfold bind.
      destruct (callMcpGetPrices w (call_args c) h) as [[payload|e] h1]; cbn [snd] in H1; subst h1.
      * destruct (IH (h ++ t1)) as (t2 & H2 & F2 & C2).
        destruct (collectResults w rest (h ++ t1)) as [[rs|e] h2]; cbn [snd] in H2; subst h2;
          cbn [snd]; exists (t1 ++ t2); (split; [now rewrite app_assoc|]);
          (split; [now apply Forall_app|]);
          intros n a Hin; apply in_app_or in Hin; destruct Hin as [Hin|Hin].
        -- destruct (C1 n a Hin) as [-> ->]. split; [reflexivity|].
           exists c. apply String.eqb_eq in Ec. simpl; auto.
        -- destruct (C2 n a Hin) as (-> & c' & Hc' & Hn & Ha). split; [reflexivity|].
           exists c'. simpl; auto.
        -- destruct (C1 n a Hin) as [-> ->]. split; [reflexivity|].
           exists c. apply String.eqb_eq in Ec. simpl; auto.
        -- destruct (C2 n a Hin) as (-> & c' & Hc' & Hn & Ha). split; [reflexivity|].
           exists c'. simpl; auto.
      * exists t1. cbn [snd]. split; [reflexivity|]. split; [exact F1|].
        intros n a Hin. destruct (C1 n a Hin) as [-> ->]. split; [reflexivity|].
        exists c. apply String.eqb_eq in Ec. simpl; auto.
    + destruct (IH h) as (t & H & F & C). exists t. split; [exact H|]. split; [exact F|].
      intros n a Hin. destruct (C n a Hin) as (-> & c' & Hc' & Hn & Ha).
      split; [reflexivity|]. exists c'. simpl; auto.
Qed.

Lemma toolLoop_shape calls acc h :
  exists t,
    snd (toolLoop w calls acc h) = h ++ t /\
    Forall (fun ev => isMcp ev = true) t /\
    (forall n a, In (EvCallTool n a) t ->
       n = "elpris.getPrices" /\
       exists c, In c calls /\ call_name c = "get_el_price" /\ a = call_args c).
Proof.
  destruct (collectResults_shape calls h) as (t & H & F & C).
  exists t. rewrite toolLoop_collect.
  destruct (collectResults w calls h) as [[rs|e] h']; cbn [snd] in *; auto.
Qed.

(** The handler, case by case. *)
Lemma postChat_cases req h :
  postChat w req h
  = match withFallback w (firstRequest (messageOf req)) h with
    | (inr e, h1) => (failed e, h1)
    | (inl first, h1) =>
        let cands := candidatesOf (response first) in
        match collectCalls cands with
        | [] => (ok (replyText cands), h1)
        | calls =>
            match toolLoop w calls [] h1 with
            | (inr e, h2) => (failed e, h2)
            | (inl toolParts, h2) =>
                match withFallback w (secondRequest (messageOf req) first toolParts) h2 with
                | (inr e, h3) => (failed e, h3)
                | (inl second, h3) =>
                    (ok (replyText (candidatesOf (response second))), h3)
                end
            end
        end
    end.
Proof.
  unfold postChat, handleTurn, bind.
  destruct (withFallback w (firstRequest (messageOf req)) h) as [[first|e] h1]; [|reflexivity].
  cbv zeta.
  destruct (collectCalls (candidatesOf (response first))) as [|c calls] eqn:Ec;
    [reflexivity|].
  cbn [List.length Nat.ltb Nat.leb].
  destruct (toolLoop w (c :: calls) [] h1) as [[toolParts|e] h2]; [|reflexivity].
  destruct (withFallback w (secondRequest (messageOf req) first toolParts) h2)
    as [[second|e] h3]; reflexivity.
Qed.

End Rounds.

(* ------------------------------------------------------------------ *)
(** ** The conversation *)

Lemma modelEvent_args args t model args' :
  Forall (modelEvent args) t -> In (EvGenerate model args') t -> args' = args.
Proof.
  intros F Hin. rewrite Forall_forall in F.
  destruct (F _ Hin) as [(m & E) | (ms & E)]; [now inversion E | discriminate].
Qed.

Lemma modelEvent_not_mcp args t :
  Forall (modelEvent args) t -> Forall (fun ev => isMcp ev = false) t.
Proof.
  apply Forall_impl. intros ev [(m & ->) | (ms & ->)]; reflexivity.
Qed.

Lemma mcp_not_generate t model args :
  Forall (fun ev => isMcp ev = true) t -> ~ In (EvGenerate model args) t.
Proof.
  intros F Hin. rewrite Forall_forall in F. specialize (F _ Hin). discriminate.
Qed.

Lemma replyText_nonempty cands : replyText cands <> "".
Proof.
  unfold replyText, orElse.
  destruct (join nl (allTexts cands)) eqn:E; simpl; discriminate.
Qed.

(** Every request the handler sends to the model is the one of round 1 or,
    after a round 1 with calls and a tool loop that went through, the one of
    round 2. *)
Lemma postChat_requests w req h :
  exists t,
    snd (postChat w req h) = h ++ t /\
    forall model args, In (EvGenerate model args) t ->
      args = firstRequest (messageOf req) \/
      exists first h1 toolParts h2,
        withFallback w (firstRequest (messageOf req)) h = (inl first, h1) /\
        toolLoop w (collectCalls (candidatesOf (response first))) [] h1
          = (inl toolParts, h2) /\
        collectCalls (candidatesOf (response first)) <> [] /\
        args = secondRequest (messageOf req) first toolParts.
Proof.
  rewrite postChat_cases.
  destruct (withFallback_shape w (firstRequest (messageOf req)) h) as (t1 & H1 & _ & F1).
  destruct (withFallback w (firstRequest (messageOf req)) h) as [[first|e] h1] eqn:R1;
    cbn [snd] in H1; subst h1.
  2:{ exists t1. split; [reflexivity|]. intros m a Hin. left.
      eapply modelEvent_args; eauto. }
  cbv zeta.
  destruct (collectCalls (candidatesOf (response first))) as [|c calls] eqn:Ec.
  { exists t1. split; [reflexivity|]. intros m a Hin. left.
    eapply modelEvent_args; eauto. }
  destruct (toolLoop_shape w (c :: calls) [] (h ++ t1)) as (t2 & H2 & F2 & _).
  destruct (toolLoop w (c :: calls) [] (h ++ t1)) as [[toolParts|e] h2] eqn:TL;
    cbn [snd] in H2; subst h2.
  2:{ exists (t1 ++ t2). split; [now rewrite app_assoc|].
      intros m a Hin. apply in_app_or in Hin. destruct Hin as [Hin|Hin].
      - left. eapply modelEvent_args; eauto.
      - exfalso. eapply mcp_not_generate; eauto. }
  destruct (withFallback_shape w (secondRequest (messageOf req) first toolParts)
              ((h ++ t1) ++ t2)) as (t3 & H3 & _ & F3).
  assert (Hreq : forall m a, In (EvGenerate m a) ((t1 ++ t2) ++ t3) ->
            a = firstRequest (messageOf req) \/
            exists first0 h1 toolParts0 h2,
              (inl first : GenerateContentResult + JsError, h ++ t1) = (inl first0, h1) /\
              toolLoop w (collectCalls (candidatesOf (response first0))) [] h1
                = (inl toolParts0, h2) /\
              collectCalls (candidatesOf (response first0)) <> [] /\
              a = secondRequest (messageOf req) first0 toolParts0).
  { intros m a Hin. apply in_app_or in Hin. destruct Hin as [Hin|Hin].
    - apply in_app_or in Hin. destruct Hin as [Hin|Hin].
      + left. eapply modelEvent_args; eauto.
      + exfalso. eapply mcp_not_generate; eauto.
    - right. exists first, (h ++ t1), toolParts, ((h ++ t1) ++ t2).
      split; [reflexivity|]. rewrite Ec. split; [exact TL|].
      split; [discriminate|]. eapply modelEvent_args; eauto. }
  destruct (withFallback w (secondRequest (messageOf req) first toolParts)
              ((h ++ t1) ++ t2)) as [[second|e] h3];
    cbn [snd] in H3; subst h3; exists ((t1 ++ t2) ++ t3);
    (split; [now rewrite !app_assoc | exact Hreq]).
Qed.

(** C1, as the code has it.  When the response of round 1 holds no tool
    call, the reply is the non-empty text parts of all its candidates joined
    by line feeds, or "(inget svar)" when that is empty; the turn ends with
    round 1: every call to the model carries the one-turn conversation, the
    tool endpoint is not contacted, and when the primary model answers at
    once the model is called exactly once. *)
Theorem postChat_without_tool_call w req h first h1 :
  withFallback w (firstRequest (messageOf req)) h = (inl first, h1) ->
  collectCalls (candidatesOf (response first)) = [] ->
  let texts := allTexts (candidatesOf (response first)) in
  postChat w req h
    = (ok (if truthy (String.concat nl texts)
           then String.concat nl texts else "(inget svar)"), h1) /\
  (exists t,
     h1 = h ++ t /\
     (forall model args, In (EvGenerate model args) t ->
        args = firstRequest (messageOf req)) /\
     Forall (fun ev => isMcp ev = false) t) /\
  (forall r,
     generateContent w h (PRIMARY_MODEL w) (firstRequest (messageOf req)) = inl r ->
     r = first /\ generateCount (skipn (List.length h) h1) = 1).
Proof.
  intros R1 Ec texts. split; [|split].
  - rewrite postChat_cases, R1. cbv zeta. rewrite Ec. reflexivity.
  - destruct (withFallback_shape w (firstRequest (messageOf req)) h) as (t & H & _ & F).
    rewrite R1 in H. cbn [snd] in H. exists t. split; [exact H|]. split.
    + intros m a Hin. eapply modelEvent_args; eauto.
    + eapply modelEvent_not_mcp; eauto.
  - intros r E.
    assert (P : generateWithRetry w (PRIMARY_MODEL w) (firstRequest (messageOf req)) h
                = (inl r, h ++ [EvGenerate (PRIMARY_MODEL w) (firstRequest (messageOf req))])).
    { unfold generateWithRetry. cbn [List.length backoff Nat.add].
      now apply retryLoop_success. }
    rewrite (withFallback_primary_ok _ _ _ _ _ P) in R1. inversion R1; subst.
    split; [reflexivity|].
    rewrite skipn_app, skipn_all, Nat.sub_diag. reflexivity.
Qed.

Lemma postChat_without_tool_call_witness :
  postChat (scripted [overloaded; answer [textPart "Hej!"; textPart "Fraga pa."]] [])
           (mkChatRequest (Some "hej")) []
  = (ok ("Hej!" ++ nl ++ "Fraga pa.")%string,
     [EvGenerate "gemini-1.5-flash" (firstRequest "hej"); EvWait 500;
      EvGenerate "gemini-1.5-flash" (firstRequest "hej")]).
Proof.
  apply (postChat_without_tool_call
           (scripted [overloaded; answer [textPart "Hej!"; textPart "Fraga pa."]] [])
           (mkChatRequest (Some "hej")) []
           (mkResult (mkResponse (Some [mkCandidate (Some (mkContent "model"
              [textPart "Hej!"; textPart "Fraga pa."]))])))).
  - reflexivity.
  - reflexivity.
Defined.

(** C1 as stated fails on a response without text: the reply is the
    placeholder, not the empty concatenation. *)
Lemma postChat_reply_not_concatenation :
  ~ (forall w req h first h1,
       withFallback w (firstRequest (messageOf req)) h = (inl first, h1) ->
       collectCalls (candidatesOf (response first)) = [] ->
       fst (postChat w req h)
       = ok (String.concat nl (allTexts (candidatesOf (response first))))).
Proof.
  intros H.
  specialize (H silentWorld (mkChatRequest (Some "hej")) []
                (mkResult (mkResponse (Some [mkCandidate (Some (mkContent "model" []))])))
                [EvGenerate "gemini-1.5-flash" (firstRequest "hej")]
                eq_refl eq_refl).
  vm_compute in H. discriminate H.
Qed.



(** C4.  A round whose run against the primary model ends in an error runs
    the same request once more, in full, against the fallback model.  When
    the fallback fails too, the turn fails with the fallback's error, in round
    1 as in round 2.  When the primary fails all its attempts with retriable
    errors and the fallback answers at once, the round yields the fallback's
    answer after exactly one retry cycle (five calls, four sleeps) against the
    primary. *)
Theorem fallback_after_primary_failure w :
  (forall args h e1 h1,
     generateWithRetry w (PRIMARY_MODEL w) args h = (inr e1, h1) ->
     withFallback w args h = generateWithRetry w (FALLBACK_MODEL w) args h1) /\
  (forall req h e1 h1 e2 h2,
     generateWithRetry w (PRIMARY_MODEL w) (firstRequest (messageOf req)) h = (inr e1, h1) ->
     generateWithRetry w (FALLBACK_MODEL w) (firstRequest (messageOf req)) h1 = (inr e2, h2) ->
     postChat w req h = (failed e2, h2)) /\
  (forall req h first h1 toolParts h2 e1 h3 e2 h4,
     withFallback w (firstRequest (messageOf req)) h = (inl first, h1) ->
     collectCalls (candidatesOf (response first)) <> [] ->
     toolLoop w (collectCalls (candidatesOf (response first))) [] h1 = (inl toolParts, h2) ->
     generateWithRetry w (PRIMARY_MODEL w) (secondRequest (messageOf req) first toolParts) h2
       = (inr e1, h3) ->
     generateWithRetry w (FALLBACK_MODEL w) (secondRequest (messageOf req) first toolParts) h3
       = (inr e2, h4) ->
     postChat w req h = (failed e2, h4)) /\
  (forall args h r,
     (forall k, k <= List.length backoff ->
        exists e, generateContent w (h ++ attemptsTrace (PRIMARY_MODEL w) args k)
                    (PRIMARY_MODEL w) args = inr e /\ retriable e = true) ->
     let cycle := attemptsTrace (PRIMARY_MODEL w) args (List.length backoff)
                  ++ [EvGenerate (PRIMARY_MODEL w) args] in
     generateContent w (h ++ cycle) (FALLBACK_MODEL w) args = inl r ->
     withFallback w args h = (inl r, h ++ cycle ++ [EvGenerate (FALLBACK_MODEL w) args]) /\
     generateCount cycle = List.length backoff + 1 /\
     waitsOf cycle = [500; 1000; 2000; 4000]%Z).
Proof.
  split; [|split; [|split]].
  - intros args h e1 h1 P. exact (withFallback_primary_failed _ _ _ _ _ P).
  - intros req h e1 h1 e2 h2 P F.
    rewrite postChat_cases, (withFallback_primary_failed _ _ _ _ _ P), F. reflexivity.
  - intros req h first h1 toolParts h2 e1 h3 e2 h4 R1 Hne TL P F.
    rewrite postChat_cases, R1. cbv zeta.
    destruct (collectCalls (candidatesOf (response first))) as [|c calls]; [contradiction|].
    rewrite TL, (withFallback_primary_failed _ _ _ _ _ P), F. reflexivity.
  - intros args h r Hfail cycle Hok.
    destruct (Hfail (List.length backoff) (le_n _)) as (e & E & _).
    assert (P : generateWithRetry w (PRIMARY_MODEL w) args h = (inr e, h ++ cycle)).
    { rewrite <- E. apply generateWithRetry_run; [lia | | lia].
      intros k Hk. apply Hfail. lia. }
    split; [|split].
    + rewrite (withFallback_primary_failed _ _ _ _ _ P).
      unfold generateWithRetry. cbn [List.length backoff Nat.add].
      rewrite (retryLoop_success _ _ _ _ _ _ r Hok). now rewrite <- app_assoc.
    + apply generateCount_attempts. lia.
    + apply waitsOf_attempts.
Qed.

Lemma fallback_after_primary_failure_witness :
  withFallback
    (scripted [overloaded; overloaded; overloaded; overloaded; overloaded;
               answer [textPart "hej"]] [])
    (firstRequest "hej") []
  = (answer [textPart "hej"],
     [] ++ (attemptsTrace "gemini-1.5-flash" (firstRequest "hej") 4
            ++ [EvGenerate "gemini-1.5-flash" (firstRequest "hej")])
        ++ [EvGenerate "gemini-1.5-flash-8b" (firstRequest "hej")]).
Proof.
  apply (proj2 (proj2 (proj2 (fallback_after_primary_failure
           (scripted [overloaded; overloaded; overloaded; overloaded; overloaded;
                      answer [textPart "hej"]] []))))
           (firstRequest "hej") []).
  - intros k Hk. exists (mkError "[503 Service Unavailable] The model is overloaded.").
    destruct k as [|[|[|[|[|k]]]]]; [split; reflexivity .. | simpl in Hk; lia].
  - reflexivity.
Defined.

(** C10.  A primary model that fails its first attempt with an error that is
    not retriable is called once, without sleep, and the round then runs the
    whole retry cycle against the fallback model: after [N] retriable
    failures of the fallback and a success the round succeeds, and only when
    the fallback fails too does the turn fail. *)
Theorem fallback_after_fatal_error w args h e :
  generateContent w h (PRIMARY_MODEL w) args = inr e ->
  retriable e = false ->
  let h1 := h ++ [EvGenerate (PRIMARY_MODEL w) args] in
  generateWithRetry w (PRIMARY_MODEL w) args h = (inr e, h1) /\
  withFallback w args h = generateWithRetry w (FALLBACK_MODEL w) args h1 /\
  (forall N r,
     N <= List.length backoff ->
     (forall k, k < N ->
        exists e', generateContent w (h1 ++ attemptsTrace (FALLBACK_MODEL w) args k)
                     (FALLBACK_MODEL w) args = inr e' /\ retriable e' = true) ->
     generateContent w (h1 ++ attemptsTrace (FALLBACK_MODEL w) args N)
       (FALLBACK_MODEL w) args = inl r ->
     withFallback w args h
     = (inl r, h1 ++ attemptsTrace (FALLBACK_MODEL w) args N
                  ++ [EvGenerate (FALLBACK_MODEL w) args])) /\
  (forall req e2 h2,
     args = firstRequest (messageOf req) ->
     generateWithRetry w (FALLBACK_MODEL w) args h1 = (inr e2, h2) ->
     postChat w req h = (failed e2, h2)).
Proof.
  intros E R h1.
  assert (P : generateWithRetry w (PRIMARY_MODEL w) args h = (inr e, h1)).
  { unfold generateWithRetry. cbn [List.length backoff Nat.add].
    apply retryLoop_rethrow; auto. }
  split; [exact P|]. split; [exact (withFallback_primary_failed _ _ _ _ _ P)|]. split.
  - intros N r HN Hfail Hok.
    rewrite (withFallback_primary_failed _ _ _ _ _ P), <- Hok.
    apply generateWithRetry_run; [exact HN | exact Hfail |].
    intros _ e'. rewrite Hok. discriminate.
  - intros req e2 h2 -> F.
    rewrite postChat_cases, (withFallback_primary_failed _ _ _ _ _ P), F. reflexivity.
Qed.

Lemma fallback_after_fatal_error_witness :
  withFallback (scripted [badKey; overloaded; answer [textPart "hej"]] [])
    (firstRequest "hej") []
  = (answer [textPart "hej"],
     [EvGenerate "gemini-1.5-flash" (firstRequest "hej");
      EvGenerate "gemini-1.5-flash-8b" (firstRequest "hej"); EvWait 500;
      EvGenerate "gemini-1.5-flash-8b" (firstRequest "hej")]).
Proof.
  refine (proj1 (proj2 (proj2 (fallback_after_fatal_error
            (scripted [badKey; overloaded; answer [textPart "hej"]] [])
            (firstRequest "hej") [] (mkError "[400 Bad Request] API key not valid.")
            eq_refl eq_refl))) 1 _ _ _ _).
  - simpl. lia.
  - intros k Hk. exists (mkError "[503 Service Unavailable] The model is overloaded.").
    destruct k as [|k]; [split; reflexivity | lia].
  - reflexivity.
Defined.

Lemma filter_recognized_none calls :
  (forall c, In c calls -> call_name c <> "get_el_price") ->
  filter recognized calls = [].
Proof.
  induction calls as [|c rest IH]; intros H; [reflexivity|].
  cbn [filter]. unfold recognized at 1.
  destruct (String.eqb_spec (call_name c) "get_el_price") as [E|_].
  - exfalso. apply (H c); simpl; auto.
  - apply IH. intros c' Hc'. apply H. simpl; auto.
Qed.

(** C5.  In a round 1 with tool calls, the calls whose name is not
    get_el_price change nothing: the tool loop runs as if they were absent,
    so every call that reaches the tool endpoint comes from a call named
    get_el_price, and no error arises from the others.  When no call is
    recognised the tool endpoint is not contacted at all, and round 2 is
    still sent, with a tool turn of zero parts; its outcome is the outcome of
    the turn. *)
Theorem unrecognized_calls_skipped w req h first h1 :
  withFallback w (firstRequest (messageOf req)) h = (inl first, h1) ->
  let calls := collectCalls (candidatesOf (response first)) in
  calls <> [] ->
  toolLoop w calls [] h1 = toolLoop w (filter recognized calls) [] h1 /\
  (exists t,
     snd (toolLoop w calls [] h1) = h1 ++ t /\
     forall n a, In (EvCallTool n a) t ->
       exists c, In c calls /\ call_name c = "get_el_price" /\ a = call_args c) /\
  ((forall c, In c calls -> call_name c <> "get_el_price") ->
   let round2 := secondRequest (messageOf req) first [] in
   toolLoop w calls [] h1 = (inl [], h1) /\
   contents round2
     = [userTurn (messageOf req); modelTurn first; mkContent "tool" []] /\
   (exists t, snd (withFallback w round2 h1)
              = h1 ++ EvGenerate (PRIMARY_MODEL w) round2 :: t) /\
   postChat w req h
   = match withFallback w round2 h1 with
     | (inl second, h2) => (ok (replyText (candidatesOf (response second))), h2)
     | (inr e, h2) => (failed e, h2)
     end).
Proof.
  intros R1 calls Hne. split; [apply toolLoop_filter|]. split.
  - destruct (toolLoop_shape w calls [] h1) as (t & H & _ & C).
    exists t. split; [exact H|]. intros n a Hin. now apply (C n a).
  - intros Hun round2.
    assert (TL : toolLoop w calls [] h1 = (inl [], h1)).
    { rewrite toolLoop_filter, (filter_recognized_none _ Hun). reflexivity. }
    split; [exact TL|]. split; [reflexivity|]. split.
    + destruct (withFallback_shape w round2 h1) as (t & H & (t' & ->) & _).
      now exists t'.
    + rewrite postChat_cases, R1. cbv zeta. fold calls.
      destruct calls as [|c rest]; [contradiction|].
      rewrite TL. reflexivity.
Qed.

Lemma unrecognized_calls_skipped_witness :
  postChat unknownToolWorld (mkChatRequest (Some "Regnar det?")) []
  = (ok "Jag kan bara svara om elpriser.",
     [EvGenerate "gemini-1.5-flash" (firstRequest "Regnar det?");
      EvGenerate "gemini-1.5-flash"
        (secondRequest "Regnar det?"
           (mkResult (mkResponse (Some [mkCandidate (Some (mkContent "model" [weatherCall]))])))
           [])]).
Proof.
  refine (eq_trans (proj2 (proj2 (proj2 (proj2 (proj2 (unrecognized_calls_skipped
            unknownToolWorld (mkChatRequest (Some "Regnar det?")) []
            (mkResult (mkResponse (Some [mkCandidate (Some (mkContent "model" [weatherCall]))])))
            [EvGenerate "gemini-1.5-flash" (firstRequest "Regnar det?")]
            eq_refl _)) _)))) _).
  - discriminate.
  - intros c [<- | []]. discriminate.
  - reflexivity.
Defined.

(** The helper [extractText] joins the populated text parts of a candidate
    with a line feed and returns the text of the first candidate for which
    that is not empty, whatever the later candidates hold; when no candidate
    yields text it returns "(inget svar)"; it never returns the empty
    string. *)
Theorem extractText_first_candidate_with_text resp :
  (forall pre c post,
     candidatesOf resp = pre ++ c :: post ->
     Forall (fun c' => String.concat nl (textsOf (candParts c')) = "") pre ->
     String.concat nl (textsOf (candParts c)) <> "" ->
     extractText resp = String.concat nl (textsOf (candParts c))) /\
  (Forall (fun c => String.concat nl (textsOf (candParts c)) = "") (candidatesOf resp) ->
   extractText resp = "(inget svar)") /\
  extractText resp <> "".
Proof.
  unfold extractText. split; [|split].
  - intros pre c post -> Hpre Hc. induction Hpre as [|c' pre' Hc' _ IH].
    + cbn [app extractText_loop]. unfold candText, join.
      destruct (String.concat nl (textsOf (candParts c))); [contradiction | reflexivity].
    + cbn [app extractText_loop]. unfold candText, join. rewrite Hc'. exact IH.
  - intros Hall. induction Hall as [|c cs Hc _ IH]; [reflexivity|].
    cbn [extractText_loop]. unfold candText, join. rewrite Hc. exact IH.
  - induction (candidatesOf resp) as [|c cs IH]; [discriminate|].
    cbn [extractText_loop]. destruct (candText c) eqn:E; [exact IH | discriminate].
Qed.

Lemma extractText_first_candidate_with_text_witness :
  extractText (mkResponse (Some [mkCandidate None;
                                 mkCandidate (Some (mkContent "model"
                                   [textPart "a"; priceCall "SE3"; textPart ""; textPart "b"]));
                                 mkCandidate (Some (mkContent "model" [textPart "c"]))]))
  = ("a" ++ nl ++ "b")%string.
Proof.
  apply (proj1 (extractText_first_candidate_with_text
                  (mkResponse (Some [mkCandidate None;
                                     mkCandidate (Some (mkContent "model"
                                       [textPart "a"; priceCall "SE3"; textPart ""; textPart "b"]));
                                     mkCandidate (Some (mkContent "model" [textPart "c"]))])))
           [mkCandidate None]
           (mkCandidate (Some (mkContent "model"
              [textPart "a"; priceCall "SE3"; textPart ""; textPart "b"])))
           [mkCandidate (Some (mkContent "model" [textPart "c"]))] eq_refl).
  - repeat constructor.
  - discriminate.
Defined.

(** X6.  [extractFunctionCalls] finds, in the same order, the calls the
    handler collects with its own loops; it only adds the optional
    identifier. *)
Lemma extractFunctionCalls_collectCalls resp :
  map snd (extractFunctionCalls resp) = collectCalls (candidatesOf resp).
Proof.
  unfold extractFunctionCalls, collectCalls.
  induction (candidatesOf resp) as [|cand cands IH]; [reflexivity|].
  cbn [flat_map]. rewrite map_app, IH. f_equal.
  induction (candParts cand) as [|p ps IHp]; [reflexivity|].
  cbn [flat_map]. rewrite map_app, IHp. f_equal.
  unfold callsOfPart. destruct (part_functionCall p) as [fc|]; [|reflexivity].
  destruct (truthy (fc_name fc)); reflexivity.
Qed.

(** The handler does not call [extractText]: the extraction it inlines joins
    the texts of all candidates, so the two differ as soon as a second
    candidate carries text. *)
Example replyText_joins_all_candidates :
  let cands := [mkCandidate (Some (mkContent "model" [textPart "a"]));
                mkCandidate (Some (mkContent "model" [textPart "b"]))] in
  extractText (mkResponse (Some cands)) = "a" /\
  replyText cands = ("a" ++ nl ++ "b")%string.
Proof. split; reflexivity. Qed.

Lemma allTexts_app cs1 cs2 : allTexts (cs1 ++ cs2) = allTexts cs1 ++ allTexts cs2.
Proof. unfold allTexts. apply flat_map_app. Qed.

Lemma allTexts_silent cs :
  Forall (fun c => textsOf (candParts c) = []) cs -> allTexts cs = [].
Proof.
  induction 1 as [|c cs Hc _ IH]; [reflexivity|].
  unfold allTexts in *. cbn [flat_map]. now rewrite Hc, IH.
Qed.

Lemma textsOf_truthy ps : Forall (fun t => truthy t = true) (textsOf ps).
Proof.
  unfold textsOf. induction ps as [|p ps IH]; [constructor|].
  cbn [flat_map]. destruct (part_text p) as [t|]; [|exact IH].
  destruct (truthy t) eqn:T; [|exact IH]. constructor; assumption.
Qed.

Lemma allTexts_truthy cands : Forall (fun t => truthy t = true) (allTexts cands).
Proof.
  unfold allTexts. induction cands as [|c cs IH]; [constructor|].
  cbn [flat_map]. apply Forall_app. split; [apply textsOf_truthy | exact IH].
Qed.

Lemma join_truthy sep t ts : truthy t = true -> truthy (join sep (t :: ts)) = true.
Proof.
  intros Ht. unfold join. destruct t as [|c t]; [discriminate|].
  destruct ts; reflexivity.
Qed.

(** The extraction of the handler, spelled out. *)
Lemma replyText_spec cands :
  replyText cands
  = match allTexts cands with
    | [] => "(inget svar)"
    | _ :: _ => String.concat nl (allTexts cands)
    end.
Proof.
  unfold replyText, orElse. pose proof (allTexts_truthy cands) as T.
  destruct (allTexts cands) as [|t ts]; [reflexivity|].
  inversion T; subst. now rewrite join_truthy.
Qed.

(** C6, as the code has it.  There are two text extractions.  The helper
    [extractText], which nothing calls, joins the populated text parts of a
    candidate with a line feed and returns the text of the first candidate
    for which that is not empty, ignoring the later ones, or "(inget svar)".
    The extraction the handler runs for its replies, in round 1 and in round
    2, joins the populated text parts of all candidates, in order, with a
    line feed: the text of later candidates is appended, not ignored; it
    returns "(inget svar)" when no candidate yields text.  Neither returns
    the empty string. *)
Theorem text_extraction_paths :
  (forall resp,
     (forall pre c post,
        candidatesOf resp = pre ++ c :: post ->
        Forall (fun c' => String.concat nl (textsOf (candParts c')) = "") pre ->
        String.concat nl (textsOf (candParts c)) <> "" ->
        extractText resp = String.concat nl (textsOf (candParts c))) /\
     (Forall (fun c => String.concat nl (textsOf (candParts c)) = "") (candidatesOf resp) ->
      extractText resp = "(inget svar)") /\
     extractText resp <> "") /\
  (forall cands,
     replyText cands
     = match flat_map (fun cand => textsOf (candParts cand)) cands with
       | [] => "(inget svar)"
       | t :: ts => String.concat nl (t :: ts)
       end /\
     replyText cands <> "") /\
  (forall pre c post,
     Forall (fun c' => textsOf (candParts c') = []) pre ->
     textsOf (candParts c) <> [] ->
     replyText (pre ++ c :: post)
     = String.concat nl
         (textsOf (candParts c) ++ flat_map (fun cand => textsOf (candParts cand)) post)) /\
  (forall w req h first h1,
     withFallback w (firstRequest (messageOf req)) h = (inl first, h1) ->
     collectCalls (candidatesOf (response first)) = [] ->
     fst (postChat w req h) = ok (replyText (candidatesOf (response first)))) /\
  (forall w req h first h1 toolParts h2 second h3,
     withFallback w (firstRequest (messageOf req)) h = (inl first, h1) ->
     collectCalls (candidatesOf (response first)) <> [] ->
     toolLoop w (collectCalls (candidatesOf (response first))) [] h1 = (inl toolParts, h2) ->
     withFallback w (secondRequest (messageOf req) first toolParts) h2 = (inl second, h3) ->
     fst (postChat w req h) = ok (replyText (candidatesOf (response second)))).
Proof.
  split; [|split; [|split; [|split]]].
  - intros resp. apply extractText_first_candidate_with_text.
  - intros cands. split; [|apply replyText_nonempty].
    rewrite replyText_spec. unfold allTexts.
    destruct (flat_map _ cands); reflexivity.
  - intros pre c post Hpre Hc. rewrite replyText_spec, allTexts_app.
    rewrite (allTexts_silent _ Hpre). cbn [app].
    change (c :: post) with ([c] ++ post). rewrite allTexts_app.
    unfold allTexts at 1 3. cbn [flat_map]. rewrite app_nil_r.
    destruct (textsOf (candParts c)) as [|t ts]; [contradiction | reflexivity].
  - intros w req h first h1 R1 Ec. rewrite postChat_cases, R1. cbv zeta.
    rewrite Ec. reflexivity.
  - intros w req h first h1 toolParts h2 second h3 R1 Hne TL R2.
    rewrite postChat_cases, R1. cbv zeta.
    destruct (collectCalls (candidatesOf (response first))) as [|c calls];
      [contradiction|].
    rewrite TL, R2. reflexivity.
Qed.

(** Two candidates with text: the helper returns the first text, the reply
    of the handler holds both. *)
Lemma text_extraction_paths_witness :
  extractText (response twoCandidates) = "a" /\
  fst (postChat twoCandidatesWorld (mkChatRequest (Some "hej")) [])
  = ok ("a" ++ nl ++ "b")%string.
Proof.
  split.
  - apply (proj1 (proj1 text_extraction_paths (response twoCandidates))
             [] (mkCandidate (Some (mkContent "model" [textPart "a"])))
             [mkCandidate (Some (mkContent "model" [textPart "b"]))] eq_refl).
    + constructor.
    + discriminate.
  - apply (proj1 (proj2 (proj2 (proj2 text_extraction_paths)))
             twoCandidatesWorld (mkChatRequest (Some "hej")) [] twoCandidates
             [EvGenerate "gemini-1.5-flash" (firstRequest "hej")]); reflexivity.
Defined.

(** C6 as stated fails for the replies: with text in two candidates the
    handler does not let the first one win. *)
Lemma reply_appends_later_candidates :
  ~ (forall w req h first h1 pre c post,
       withFallback w (firstRequest (messageOf req)) h = (inl first, h1) ->
       collectCalls (candidatesOf (response first)) = [] ->
       candidatesOf (response first) = pre ++ c :: post ->
       Forall (fun c' => String.concat nl (textsOf (candParts c')) = "") pre ->
       String.concat nl (textsOf (candParts c)) <> "" ->
       fst (postChat w req h) = ok (String.concat nl (textsOf (candParts c)))).
Proof.
  intros H.
  specialize (H twoCandidatesWorld (mkChatRequest (Some "hej")) [] twoCandidates
                [EvGenerate "gemini-1.5-flash" (firstRequest "hej")]
                [] (mkCandidate (Some (mkContent "model" [textPart "a"])))
                [mkCandidate (Some (mkContent "model" [textPart "b"]))]
                eq_refl eq_refl eq_refl (Forall_nil _) ltac:(discriminate)).
  vm_compute in H. discriminate H.
Qed.

(** C7, as the code has it.  The bridge closes the connection once the tool
    call has returned, before it decodes the payload, so a payload that
    cannot be decoded leaves a closed connection behind; a tool call that
    itself fails is thrown on without [close]. *)
Theorem callMcpGetPrices_close w args h :
  mcp_connect w h = None ->
  (forall res,
     mcp_callTool w (h ++ [EvConnect]) "elpris.getPrices" args = inl res ->
     snd (callMcpGetPrices w args h)
       = h ++ [EvConnect; EvCallTool "elpris.getPrices" args; EvClose] /\
     (mcp_close w (h ++ [EvConnect; EvCallTool "elpris.getPrices" args]) = None ->
      fst (callMcpGetPrices w args h) = decodePayload w res)) /\
  (forall e,
     mcp_callTool w (h ++ [EvConnect]) "elpris.getPrices" args = inr e ->
     callMcpGetPrices w args h
       = (inr e, h ++ [EvConnect; EvCallTool "elpris.getPrices" args])).
Proof.
  intros E1. split.
  - intros res E2. rewrite (callMcpGetPrices_called _ _ _ _ E1 E2). split; [reflexivity|].
    intros ->. reflexivity.
  - intros e E2. now apply callMcpGetPrices_call_failed.
Qed.

(** A reply without text element: decoding fails, after the close. *)
Lemma callMcpGetPrices_close_witness :
  callMcpGetPrices malformedToolWorld (JObj [("area", JStr "SE3")]) []
  = (inr (mkError "Oväntat MCP-svar (saknar content[0].text)"),
     [EvConnect; EvCallTool "elpris.getPrices" (JObj [("area", JStr "SE3")]); EvClose]).
Proof.
  destruct (proj1 (callMcpGetPrices_close malformedToolWorld
                     (JObj [("area", JStr "SE3")]) [] eq_refl)
                  (mkCallToolResult (Some [])) eq_refl) as [Ht Hr].
  specialize (Hr eq_refl).
  rewrite (surjective_pairing (callMcpGetPrices _ _ _)), Ht, Hr. reflexivity.
Defined.

(** C7 as stated fails when the tool call itself fails: the connection was
    opened and no [close] follows. *)
Lemma callMcpGetPrices_leaves_connection_open :
  ~ (forall w args h,
       mcp_connect w h = None ->
       exists t, snd (callMcpGetPrices w args h) = h ++ t /\ In EvClose t).
Proof.
  intros H.
  destruct (H brokenToolWorld (JObj [("area", JStr "SE3")]) [] eq_refl) as (t & Ht & Hin).
  vm_compute in Ht. subst t.
  destruct Hin as [Hin | [Hin | []]]; discriminate.
Qed.

Lemma existsb_filter_nonempty calls :
  existsb recognized calls = true -> filter recognized calls <> [].
Proof.
  induction calls as [|c rest IH]; [discriminate|].
  cbn [existsb filter]. destruct (recognized c); [discriminate | exact IH].
Qed.

Lemma toolLoop_nonempty w calls h toolParts h' :
  toolLoop w calls [] h = (inl toolParts, h') ->
  existsb recognized calls = true ->
  toolParts <> [].
Proof.
  rewrite toolLoop_collect. intros TL Hex.
  destruct (collectResults w calls h) as [[rs|e] h1] eqn:CR; [|discriminate].
  inversion TL; subst. cbn [app].
  pose proof (collectResults_names _ _ _ _ _ CR) as Hn.
  pose proof (existsb_filter_nonempty _ Hex) as Hf.
  destruct rs as [|r rs]; [|discriminate].
  destruct (filter recognized calls); [contradiction | discriminate].
Qed.

Lemma existsb_filter_iff calls :
  existsb recognized calls = true <-> filter recognized calls <> [].
Proof.
  split; [apply existsb_filter_nonempty|].
  induction calls as [|c rest IH]; [intros H; now contradiction H|].
  cbn [existsb filter]. destruct (recognized c); [reflexivity | exact IH].
Qed.

Lemma toolLoop_length w calls h toolParts h' :
  toolLoop w calls [] h = (inl toolParts, h') ->
  List.length toolParts = List.length (filter recognized calls).
Proof.
  rewrite toolLoop_collect. intros TL.
  destruct (collectResults w calls h) as [[rs|e] h1] eqn:CR; [|discriminate].
  inversion TL; subst. cbn [app]. rewrite length_map.
  rewrite <- (length_map tcr_name), (collectResults_names _ _ _ _ _ CR).
  apply length_map.
Qed.

(** C8, as the code has it.  Every request the handler sends is the one of
    round 1 or one of round 2.  The request of round 1 is the user turn
    alone, with exactly one text part, so every turn sent in round 1 is
    non-empty.  Round 2 is sent whenever round 1 returned calls and the tool
    loop went through; its request holds the user turn, a model turn with the
    parts of the first candidate of round 1, and a tool turn with one part per
    call named get_el_price, so its turns are all non-empty exactly when that
    first candidate has at least one part and at least one call is named
    get_el_price. *)
Theorem sent_turns_characterised w req h :
  let msg := messageOf req in
  contents (firstRequest msg) = [mkContent "user" [textPart msg]] /\
  forallb turnNonEmpty (contents (firstRequest msg)) = true /\
  (exists t,
     snd (postChat w req h) = h ++ t /\
     forall model args, In (EvGenerate model args) t ->
       args = firstRequest msg \/
       exists first h1 toolParts h2,
         withFallback w (firstRequest msg) h = (inl first, h1) /\
         toolLoop w (collectCalls (candidatesOf (response first))) [] h1
           = (inl toolParts, h2) /\
         args = secondRequest msg first toolParts /\
         contents args
           = [mkContent "user" [textPart msg];
              mkContent "model" (firstCandidateParts first);
              mkContent "tool" toolParts] /\
         List.length toolParts
           = List.length (filter recognized (collectCalls (candidatesOf (response first)))) /\
         (forallb turnNonEmpty (contents args) = true <->
          firstCandidateParts first <> [] /\
          existsb recognized (collectCalls (candidatesOf (response first))) = true)) /\
  (forall first h1 toolParts h2,
     withFallback w (firstRequest msg) h = (inl first, h1) ->
     collectCalls (candidatesOf (response first)) <> [] ->
     toolLoop w (collectCalls (candidatesOf (response first))) [] h1 = (inl toolParts, h2) ->
     exists t, snd (postChat w req h)
               = h2 ++ EvGenerate (PRIMARY_MODEL w) (secondRequest msg first toolParts) :: t).
Proof.
  cbv zeta. split; [reflexivity|]. split; [reflexivity|]. split.
  - destruct (postChat_requests w req h) as (t & Ht & Hreq).
    exists t. split; [exact Ht|]. intros m a Hin.
    destruct (Hreq m a Hin) as [-> | (first & h1 & toolParts & h2 & R1 & TL & Hne & ->)];
      [now left|].
    right. exists first, h1, toolParts, h2.
    split; [exact R1|]. split; [exact TL|]. split; [reflexivity|]. split; [reflexivity|].
    pose proof (toolLoop_length _ _ _ _ _ TL) as Hlen.
    split; [exact Hlen|].
    unfold secondRequest. cbn [contents forallb].
    unfold turnNonEmpty, userTurn, modelTurn, toolTurn. cbn [parts andb].
    rewrite existsb_filter_iff.
    destruct (firstCandidateParts first) as [|p ps].
    + split; [discriminate | intros [H _]; now contradiction H].
    + destruct toolParts as [|tp tps].
      * split; [discriminate|]. intros [_ H].
        destruct (filter recognized _); [now contradiction H | discriminate Hlen].
      * split; [|reflexivity]. intros _. split; [discriminate|].
        destruct (filter recognized _); [discriminate Hlen | discriminate].
  - intros first h1 toolParts h2 R1 Hne TL.
    rewrite postChat_cases, R1. cbv zeta.
    destruct (collectCalls (candidatesOf (response first))) as [|c calls];
      [contradiction|].
    rewrite TL.
    destruct (withFallback_shape w (secondRequest (messageOf req) first toolParts) h2)
      as (t & H & (t' & ->) & _).
    exists t'.
    destruct (withFallback w (secondRequest (messageOf req) first toolParts) h2)
      as [[second|e] h3]; exact H.
Qed.

(** Only an unknown tool is called: round 2 is sent, with a tool turn
    without parts. *)
Lemma sent_turns_characterised_witness :
  exists t,
    snd (postChat unknownToolWorld (mkChatRequest (Some "Regnar det?")) [])
    = [EvGenerate "gemini-1.5-flash" (firstRequest "Regnar det?")]
      ++ EvGenerate (PRIMARY_MODEL unknownToolWorld)
           (secondRequest "Regnar det?"
              (mkResult (mkResponse (Some [mkCandidate (Some (mkContent "model" [weatherCall]))])))
              []) :: t.
Proof.
  apply (proj2 (proj2 (proj2 (sent_turns_characterised unknownToolWorld
                         (mkChatRequest (Some "Regnar det?")) [])))
           (mkResult (mkResponse (Some [mkCandidate (Some (mkContent "model" [weatherCall]))])))
           [EvGenerate "gemini-1.5-flash" (firstRequest "Regnar det?")]
           []
           [EvGenerate "gemini-1.5-flash" (firstRequest "Regnar det?")]).
  - reflexivity.
  - discriminate.
  - reflexivity.
Defined.

(** C8 as stated fails when no call of round 1 is recognised: round 2 is
    sent with a tool turn that has no parts. *)
Lemma tool_turn_sent_empty :
  ~ (forall w req h,
       exists t, snd (postChat w req h) = h ++ t /\ turnsNonEmpty t = true).
Proof.
  intros H.
  destruct (H unknownToolWorld (mkChatRequest (Some "Regnar det?")) []) as (t & Ht & Hne).
  vm_compute in Ht. subst t. vm_compute in Hne. discriminate Hne.
Qed.

(** C9.  The handler answers with status 200 and a body that has a non-empty
    [reply] and no [error], or with status 503 and a body that has the
    message of the thrown error as [error] and no [reply].  An error left
    over by round 1, by a tool call or by round 2 gives the second, also
    when earlier tool calls had succeeded; the reply of the first is the text
    of the last round that ran. *)
Theorem postChat_reply_or_error w req h :
  let res := fst (postChat w req h) in
  let msg := messageOf req in
  ((status res = 200%Z /\ error (body res) = None /\
    exists text, reply (body res) = Some text /\ text <> "") \/
   ((status res < 200 \/ 299 < status res)%Z /\ reply (body res) = None /\
    exists e, fst (handleTurn w req h) = inr e /\ error (body res) = Some (message e))) /\
  (forall e h1,
     withFallback w (firstRequest msg) h = (inr e, h1) ->
     postChat w req h = (failed e, h1)) /\
  (forall first h1 e h2,
     withFallback w (firstRequest msg) h = (inl first, h1) ->
     toolLoop w (collectCalls (candidatesOf (response first))) [] h1 = (inr e, h2) ->
     postChat w req h = (failed e, h2)) /\
  (forall first h1 toolParts h2 e h3,
     withFallback w (firstRequest msg) h = (inl first, h1) ->
     collectCalls (candidatesOf (response first)) <> [] ->
     toolLoop w (collectCalls (candidatesOf (response first))) [] h1 = (inl toolParts, h2) ->
     withFallback w (secondRequest msg first toolParts) h2 = (inr e, h3) ->
     postChat w req h = (failed e, h3)) /\
  (forall first h1,
     withFallback w (firstRequest msg) h = (inl first, h1) ->
     collectCalls (candidatesOf (response first)) = [] ->
     postChat w req h = (ok (replyText (candidatesOf (response first))), h1)) /\
  (forall first h1 toolParts h2 second h3,
     withFallback w (firstRequest msg) h = (inl first, h1) ->
     collectCalls (candidatesOf (response first)) <> [] ->
     toolLoop w (collectCalls (candidatesOf (response first))) [] h1 = (inl toolParts, h2) ->
     withFallback w (secondRequest msg first toolParts) h2 = (inl second, h3) ->
     postChat w req h = (ok (replyText (candidatesOf (response second))), h3)).
Proof.
  intros res msg. split.
  - subst res. unfold postChat.
    destruct (handleTurn w req h) as [[r|e] h'] eqn:HT.
    + left. cbn [fst].
      assert (Hr : exists text, r = ok text /\ text <> "").
      { revert HT. unfold handleTurn, bind.
        destruct (withFallback w (firstRequest (messageOf req)) h) as [[first|e] h1];
          [|discriminate].
        cbv zeta. destruct (0 <? _)%nat.
        - destruct (toolLoop w _ [] h1) as [[toolParts|e] h2]; [|discriminate].
          destruct (withFallback w _ h2) as [[second|e] h3]; [|discriminate].
          unfold ret. intros HT. inversion HT. eexists. split; [reflexivity|].
          apply replyText_nonempty.
        - unfold ret. intros HT. inversion HT. eexists. split; [reflexivity|].
          apply replyText_nonempty. }
      destruct Hr as (text & -> & Hne). cbn. split; [reflexivity|]. split; [reflexivity|].
      now exists text.
    + right. cbn. split; [right; lia|]. split; [reflexivity|]. now exists e.
  - split; [|split; [|split; [|split]]].
    + intros e h1 R1. rewrite postChat_cases. fold msg. rewrite R1. reflexivity.
    + intros first h1 e h2 R1 TL. rewrite postChat_cases. fold msg. rewrite R1. cbv zeta.
      destruct (collectCalls (candidatesOf (response first))) as [|c calls];
        [discriminate TL|].
      rewrite TL. reflexivity.
    + intros first h1 toolParts h2 e h3 R1 Hne TL R2.
      rewrite postChat_cases. fold msg. rewrite R1. cbv zeta.
      destruct (collectCalls (candidatesOf (response first))) as [|c calls];
        [contradiction|].
      rewrite TL, R2. reflexivity.
    + intros first h1 R1 Ec. rewrite postChat_cases. fold msg. rewrite R1. cbv zeta.
      rewrite Ec. reflexivity.
    + intros first h1 toolParts h2 second h3 R1 Hne TL R2.
      rewrite postChat_cases. fold msg. rewrite R1. cbv zeta.
      destruct (collectCalls (candidatesOf (response first))) as [|c calls];
        [contradiction|].
      rewrite TL, R2. reflexivity.
Qed.

(** The tool answers without a text element: a 503 with the error, no
    reply. *)
Lemma postChat_reply_or_error_witness :
  postChat malformedToolWorld (mkChatRequest (Some "SE3?")) []
  = (mkHttp 503 (mkBody None (Some "Oväntat MCP-svar (saknar content[0].text)")),
     [EvGenerate "gemini-1.5-flash" (firstRequest "SE3?");
      EvConnect; EvCallTool "elpris.getPrices" (JObj [("area", JStr "SE3")]); EvClose]).
Proof.
  apply (proj1 (proj2 (proj2 (postChat_reply_or_error malformedToolWorld
                                (mkChatRequest (Some "SE3?")) [])))
           (mkResult (mkResponse (Some [mkCandidate (Some (mkContent "model" [priceCall "SE3"]))])))
           [EvGenerate "gemini-1.5-flash" (firstRequest "SE3?")]
           (mkError "Oväntat MCP-svar (saknar content[0].text)")).
  - reflexivity.
  - reflexivity.
Defined.

Example scenario_tool_round :
  postChat (scripted [answer [priceCall "SE3"]; answer [textPart "Snittpriset i SE3 idag: 1.23 SEK/kWh."]]
                     [toolText "{avg: 1.23}"])
           (mkChatRequest (Some "Vad kostar elen i SE3 idag?")) []
  = (ok "Snittpriset i SE3 idag: 1.23 SEK/kWh.",
     [EvGenerate "gemini-1.5-flash" (firstRequest "Vad kostar elen i SE3 idag?");
      EvConnect; EvCallTool "elpris.getPrices" (JObj [("area", JStr "SE3")]); EvClose;
      EvGenerate "gemini-1.5-flash"
        (secondRequest "Vad kostar elen i SE3 idag?"
           (mkResult (mkResponse (Some [mkCandidate (Some (mkContent "model" [priceCall "SE3"]))])))
           [functionResponsePart "get_el_price" (JStr "{avg: 1.23}")])]).
Proof. reflexivity. Qed.

Example scenario_retry :
  generateWithRetry (scripted [overloaded; overloaded; answer [textPart "hej"]] [])
    "m" (firstRequest "x") []
  = (answer [textPart "hej"],
     [EvGenerate "m" (firstRequest "x"); EvWait 500;
      EvGenerate "m" (firstRequest "x"); EvWait 1000;
      EvGenerate "m" (firstRequest "x")]).
Proof. reflexivity. Qed.


(* ------------------------------------------------------------------ *)
(** ** More on the chat server *)

Lemma prefix_spec needle : forall s,
  String.prefix needle s = true <-> exists post, s = (needle ++ post)%string.
Proof.
  induction needle as [|c needle IH]; intros s.
  - split; [intros _; now exists s | intros _; destruct s; reflexivity].
  - destruct s as [|c' s]; cbn [String.prefix String.append].
    + split; [discriminate | intros (post & H); discriminate].
    + destruct (Ascii.ascii_dec c c') as [->|Hc].
      * rewrite IH. split; intros (post & H); exists post; [now subst | now inversion H].
      * split; [discriminate | intros (post & H); inversion H; congruence].
Qed.

Lemma includes_spec needle : forall s,
  includes s needle = true <-> exists pre post, s = (pre ++ needle ++ post)%string.
Proof.
  induction s as [|c s IH]; cbn [includes].
  - destruct (String.prefix needle "") eqn:P.
    + split; [intros _|intros _; reflexivity]. apply prefix_spec in P. destruct P as (post & P).
      exists "", post. exact P.
    + split; [discriminate|]. intros (pre & post & H).
      destruct pre as [|c pre]; [|discriminate].
      assert (String.prefix needle "" = true) by (apply prefix_spec; now exists post).
      congruence.
  - destruct (String.prefix needle (String c s)) eqn:P.
    + split; [intros _|intros _; reflexivity]. apply prefix_spec in P. destruct P as (post & P).
      exists "", post. exact P.
    + rewrite IH. split.
      * intros (pre & post & ->). now exists (String c pre), post.
      * intros (pre & post & H). destruct pre as [|c' pre].
        -- assert (String.prefix needle (String c s) = true)
             by (apply prefix_spec; now exists post).
           congruence.
        -- inversion H. now exists pre, post.
Qed.

(** X1.  The error thrown by [generateWithRetry] is always the answer of the
    model to the last attempt made: the run stopped there because the error
    is not retriable or because it was the fifth attempt.  The statement
    after the loop ("retry exhausted") is never reached. *)
Theorem generateWithRetry_throws_last_answer w model args h e h' :
  generateWithRetry w model args h = (inr e, h') ->
  exists n,
    n <= List.length backoff /\
    h' = h ++ attemptsTrace model args n ++ [EvGenerate model args] /\
    generateContent w (h ++ attemptsTrace model args n) model args = inr e /\
    (retriable e = false \/ n = List.length backoff).
Proof.
  intros H.
  destruct (generateWithRetry_shape w model args h) as (n & Hn & Hrun & _ & Hstop).
  rewrite Hrun in H.
  pose proof (f_equal fst H) as E. pose proof (f_equal snd H) as Hh. cbn [fst snd] in E, Hh.
  exists n. split; [exact Hn|]. split; [now symmetry|]. split; [exact E|].
  destruct (Nat.eq_dec n (List.length backoff)) as [->|Hne]; [now right|].
  left. apply Hstop; [lia | exact E].
Qed.

Lemma generateWithRetry_throws_last_answer_witness :
  exists n,
    n <= List.length backoff /\
    [EvGenerate "m" (firstRequest "x"); EvWait 500; EvGenerate "m" (firstRequest "x")]
    = [] ++ attemptsTrace "m" (firstRequest "x") n ++ [EvGenerate "m" (firstRequest "x")] /\
    generateContent (scripted [overloaded; badKey] [])
      ([] ++ attemptsTrace "m" (firstRequest "x") n) "m" (firstRequest "x") = badKey /\
    (retriable (mkError "[400 Bad Request] API key not valid.") = false
     \/ n = List.length backoff).
Proof.
  apply (generateWithRetry_throws_last_answer (scripted [overloaded; badKey] [])
           "m" (firstRequest "x") []).
  reflexivity.
Defined.

(** X2.  An error is retried exactly when its message contains "503", "429"
    or "overloaded" somewhere. *)
Theorem retriable_iff_substring e :
  retriable e = true <->
  exists pre post,
    message e = (pre ++ "503" ++ post)%string \/
    message e = (pre ++ "429" ++ post)%string \/
    message e = (pre ++ "overloaded" ++ post)%string.
Proof.
  unfold retriable. rewrite !orb_true_iff, !includes_spec. split.
  - intros [[(pre & post & H) | (pre & post & H)] | (pre & post & H)];
      exists pre, post; auto.
  - intros (pre & post & [H | [H | H]]); [left; left | left; right | right];
      now exists pre, post.
Qed.

Lemma retriable_iff_substring_witness :
  retriable (mkError "GoogleGenerativeAIError: [429 Too Many Requests] quota") = true.
Proof.
  apply (proj2 (retriable_iff_substring _)).
  exists "GoogleGenerativeAIError: [", " Too Many Requests] quota". right. left. reflexivity.
Defined.

Lemma totalWait_app h1 h2 : totalWait (h1 ++ h2) = (totalWait h1 + totalWait h2)%Z.
Proof.
  unfold totalWait. rewrite waitsOf_app.
  induction (waitsOf h1) as [|d ds IH]; [reflexivity|]. cbn [app fold_right]. lia.
Qed.

Lemma totalWait_attempts model args n :
  n <= List.length backoff ->
  (0 <= totalWait (attemptsTrace model args n ++ [EvGenerate model args]) <= 7500)%Z.
Proof.
  intros Hn. unfold totalWait. rewrite waitsOf_attempts.
  do 5 (destruct n as [|n]; [cbn; lia|]). simpl in Hn. lia.
Qed.

Lemma mcp_generateCount t :
  Forall (fun ev => isMcp ev = true) t -> generateCount t = 0.
Proof.
  unfold generateCount. induction 1 as [|ev t Hev _ IH]; [reflexivity|].
  destruct ev; try discriminate; exact IH.
Qed.

Lemma mcp_totalWait t :
  Forall (fun ev => isMcp ev = true) t -> totalWait t = 0%Z.
Proof.
  unfold totalWait, waitsOf. induction 1 as [|ev t Hev _ IH]; [reflexivity|].
  destruct ev; try discriminate; exact IH.
Qed.

(** What a round costs at most: two retry cycles. *)
Lemma withFallback_budget w args h :
  exists t,
    snd (withFallback w args h) = h ++ t /\
    Forall (modelEvent args) t /\
    generateCount t <= 10 /\
    (0 <= totalWait t <= 15000)%Z.
Proof.
  destruct (generateWithRetry_shape w (PRIMARY_MODEL w) args h) as (n & Hn & Hrun & _).
  pose proof (generateCount_attempts (PRIMARY_MODEL w) args n Hn) as G1.
  pose proof (totalWait_attempts (PRIMARY_MODEL w) args n Hn) as W1.
  simpl in Hn.
  destruct (generateContent w (h ++ attemptsTrace (PRIMARY_MODEL w) args n)
              (PRIMARY_MODEL w) args) as [r|e] eqn:E.
  - rewrite (withFallback_primary_ok _ _ _ _ _ Hrun). eexists. split; [reflexivity|].
    split; [apply attemptsTrace_modelEvents|]. split; lia.
  - rewrite (withFallback_primary_failed _ _ _ _ _ Hrun).
    destruct (generateWithRetry_shape w (FALLBACK_MODEL w) args
                (h ++ attemptsTrace (PRIMARY_MODEL w) args n
                   ++ [EvGenerate (PRIMARY_MODEL w) args])) as (n' & Hn' & Hrun' & _).
    pose proof (generateCount_attempts (FALLBACK_MODEL w) args n' Hn') as G2.
    pose proof (totalWait_attempts (FALLBACK_MODEL w) args n' Hn') as W2.
    simpl in Hn'. rewrite Hrun'. cbn [snd].
    exists ((attemptsTrace (PRIMARY_MODEL w) args n ++ [EvGenerate (PRIMARY_MODEL w) args])
            ++ attemptsTrace (FALLBACK_MODEL w) args n'
            ++ [EvGenerate (FALLBACK_MODEL w) args]).
    split; [now rewrite <- !app_assoc|]. split.
    + apply Forall_app. split; apply attemptsTrace_modelEvents.
    + rewrite generateCount_app, totalWait_app. split; lia.
Qed.

(** The history of a request, in its three phases. *)
Lemma postChat_decompose w req h :
  exists t1 t2 t3,
    snd (postChat w req h) = h ++ t1 ++ t2 ++ t3 /\
    (Forall (fun ev => isMcp ev = false) t1 /\ generateCount t1 <= 10 /\
     (0 <= totalWait t1 <= 15000)%Z) /\
    Forall (fun ev => isMcp ev = true) t2 /\
    (Forall (fun ev => isMcp ev = false) t3 /\ generateCount t3 <= 10 /\
     (0 <= totalWait t3 <= 15000)%Z).
Proof.
  assert (Hnil : Forall (fun ev => isMcp ev = false) [] /\ generateCount [] <= 10 /\
                 (0 <= totalWait [] <= 15000)%Z).
  { split; [constructor|]. split; [unfold generateCount; simpl; lia|]. cbn. lia. }
  rewrite postChat_cases.
  destruct (withFallback_budget w (firstRequest (messageOf req)) h) as (t1 & H1 & F1 & G1 & W1).
  apply modelEvent_not_mcp in F1.
  pose proof (conj F1 (conj G1 W1)) as P1.
  destruct (withFallback w (firstRequest (messageOf req)) h) as [[first|e] h1];
    cbn [snd] in H1; subst h1.
  2:{ exists t1, [], []. rewrite !app_nil_r.
      split; [reflexivity|]. split; [exact P1|]. split; [constructor | exact Hnil]. }
  cbv zeta.
  destruct (collectCalls (candidatesOf (response first))) as [|c calls].
  { exists t1, [], []. rewrite !app_nil_r.
    split; [reflexivity|]. split; [exact P1|]. split; [constructor | exact Hnil]. }
  destruct (toolLoop_shape w (c :: calls) [] (h ++ t1)) as (t2 & H2 & F2 & _).
  destruct (toolLoop w (c :: calls) [] (h ++ t1)) as [[toolParts|e] h2];
    cbn [snd] in H2; subst h2.
  2:{ exists t1, t2, []. rewrite !app_nil_r, app_assoc.
      split; [reflexivity|]. split; [exact P1|]. split; [exact F2 | exact Hnil]. }
  destruct (withFallback_budget w (secondRequest (messageOf req) first toolParts)
              ((h ++ t1) ++ t2)) as (t3 & H3 & F3 & G3 & W3).
  apply modelEvent_not_mcp in F3.
  exists t1, t2, t3.
  destruct (withFallback w (secondRequest (messageOf req) first toolParts)
              ((h ++ t1) ++ t2)) as [[second|e] h3];
    cbn [snd] in H3; subst h3; rewrite <- !app_assoc;
    (split; [reflexivity|]); (split; [exact P1|]); (split; [exact F2|]);
    exact (conj F3 (conj G3 W3)).
Qed.

(** X3.  The budget of one request: whatever the collaborators answer, the
    handler calls the model at most 20 times and sleeps at most 30 seconds in
    all. *)
Theorem postChat_budget w req h :
  exists t,
    snd (postChat w req h) = h ++ t /\
    generateCount t <= 20 /\
    (0 <= totalWait t <= 30000)%Z.
Proof.
  destruct (postChat_decompose w req h)
    as (t1 & t2 & t3 & H & (_ & G1 & W1) & F2 & (_ & G3 & W3)).
  exists (t1 ++ t2 ++ t3). split; [exact H|].
  rewrite !generateCount_app, !totalWait_app.
  rewrite (mcp_generateCount _ F2), (mcp_totalWait _ F2). split; lia.
Qed.




Lemma extractText_loop_silent cs :
  Forall (fun c => textsOf (candParts c) = []) cs ->
  extractText_loop cs = "(inget svar)".
Proof.
  induction 1 as [|c cs Hc _ IH]; [reflexivity|].
  cbn [extractText_loop]. unfold candText. rewrite Hc. exact IH.
Qed.

(** X7.  [extractText] and the extraction inlined in the handler give the
    same text whenever at most one candidate of the response carries text. *)
Theorem extractText_agrees_with_reply resp pre c post :
  candidatesOf resp = pre ++ c :: post ->
  Forall (fun c' => textsOf (candParts c') = []) pre ->
  Forall (fun c' => textsOf (candParts c') = []) post ->
  extractText resp = replyText (candidatesOf resp).
Proof.
  unfold extractText, replyText. intros -> Hpre Hpost.
  rewrite allTexts_app, (allTexts_silent _ Hpre). cbn [app].
  change (c :: post) with ([c] ++ post).
  rewrite allTexts_app, (allTexts_silent _ Hpost), app_nil_r.
  unfold allTexts. cbn [flat_map]. rewrite app_nil_r.
  induction Hpre as [|c' pre' Hc' _ IH].
  - cbn [app extractText_loop]. unfold candText, orElse.
    destruct (truthy (join nl (textsOf (candParts c)))); [reflexivity|].
    now apply extractText_loop_silent.
  - cbn [app extractText_loop]. unfold candText at 1. rewrite Hc'. exact IH.
Qed.

Lemma extractText_agrees_with_reply_witness :
  extractText (mkResponse (Some [mkCandidate (Some (mkContent "model" [priceCall "SE3"]));
                                 mkCandidate (Some (mkContent "model" [textPart "a"; textPart "b"]));
                                 mkCandidate None]))
  = replyText [mkCandidate (Some (mkContent "model" [priceCall "SE3"]));
               mkCandidate (Some (mkContent "model" [textPart "a"; textPart "b"]));
               mkCandidate None].
Proof.
  apply (extractText_agrees_with_reply
           (mkResponse (Some [mkCandidate (Some (mkContent "model" [priceCall "SE3"]));
                              mkCandidate (Some (mkContent "model" [textPart "a"; textPart "b"]));
                              mkCandidate None]))
           [mkCandidate (Some (mkContent "model" [priceCall "SE3"]))]
           (mkCandidate (Some (mkContent "model" [textPart "a"; textPart "b"])))
           [mkCandidate None] eq_refl); repeat constructor.
Defined.

Lemma toolLoop_app w pre : forall rest acc h,
  toolLoop w (pre ++ rest) acc h
  = match toolLoop w pre acc h with
    | (inl acc', h1) => toolLoop w rest acc' h1
    | (inr e, h1) => (inr e, h1)
    end.
Proof.
  induction pre as [|c pre IH]; intros rest acc h; [reflexivity|].
  cbn [app toolLoop]. destruct (call_name c =? "get_el_price")%string; [|apply IH].
  unfold bind. destruct (callMcpGetPrices w (call_args c) h) as [[payload|e] h1];
    [apply IH | reflexivity].
Qed.

(** X8.  The tool calls run one after the other, and the first one that
    fails ends the turn: the calls after it never reach the tool endpoint,
    round 2 is not sent, and the answer is the 503 with that error, even
    though earlier calls had succeeded. *)
Theorem postChat_stops_at_failed_tool_call w req h first h1 pre c post acc h2 e h3 :
  withFallback w (firstRequest (messageOf req)) h = (inl first, h1) ->
  collectCalls (candidatesOf (response first)) = pre ++ c :: post ->
  toolLoop w pre [] h1 = (inl acc, h2) ->
  call_name c = "get_el_price" ->
  callMcpGetPrices w (call_args c) h2 = (inr e, h3) ->
  toolLoop w (pre ++ c :: post) [] h1 = (inr e, h3) /\
  postChat w req h = (failed e, h3).
Proof.
  intros R1 Ec Hpre Hc Hfail.
  assert (TL : toolLoop w (pre ++ c :: post) [] h1 = (inr e, h3)).
  { rewrite toolLoop_app, Hpre. cbn [toolLoop]. rewrite Hc. cbn.
    unfold bind. rewrite Hfail. reflexivity. }
  split; [exact TL|].
  rewrite postChat_cases, R1. cbv zeta. rewrite Ec.
  destruct (pre ++ c :: post) as [|c0 cs] eqn:E; [now destruct pre|].
  rewrite TL. reflexivity.
Qed.

Lemma postChat_stops_at_failed_tool_call_witness :
  postChat (scripted [answer [priceCall "SE1"; priceCall "SE2"; priceCall "SE3"]]
                     [toolText "{avg: 0.5}"; inr (mkError "fetch failed")])
           (mkChatRequest (Some "Jamfor")) []
  = (failed (mkError "fetch failed"),
     [EvGenerate "gemini-1.5-flash" (firstRequest "Jamfor");
      EvConnect; EvCallTool "elpris.getPrices" (JObj [("area", JStr "SE1")]); EvClose;
      EvConnect; EvCallTool "elpris.getPrices" (JObj [("area", JStr "SE2")])]).
Proof.
  refine (proj2 (postChat_stops_at_failed_tool_call
            (scripted [answer [priceCall "SE1"; priceCall "SE2"; priceCall "SE3"]]
                      [toolText "{avg: 0.5}"; inr (mkError "fetch failed")])
            (mkChatRequest (Some "Jamfor")) []
            (mkResult (mkResponse (Some [mkCandidate (Some (mkContent "model"
               [priceCall "SE1"; priceCall "SE2"; priceCall "SE3"]))])))
            [EvGenerate "gemini-1.5-flash" (firstRequest "Jamfor")]
            [mkCall "get_el_price" (JObj [("area", JStr "SE1")])]
            (mkCall "get_el_price" (JObj [("area", JStr "SE2")]))
            [mkCall "get_el_price" (JObj [("area", JStr "SE3")])]
            [functionResponsePart "get_el_price" (JStr "{avg: 0.5}")]
            [EvGenerate "gemini-1.5-flash" (firstRequest "Jamfor");
             EvConnect; EvCallTool "elpris.getPrices" (JObj [("area", JStr "SE1")]); EvClose]
            (mkError "fetch failed")
            _
            eq_refl eq_refl eq_refl eq_refl eq_refl)).
Defined.

Lemma callMcpGetPrices_success w args h v h' :
  callMcpGetPrices w args h = (inl v, h') -> h' = h ++ bridgeTrace args.
Proof.
  intros H.
  destruct (mcp_connect w h) as [e|] eqn:E1.
  { rewrite (callMcpGetPrices_connect_failed _ _ _ _ E1) in H. discriminate. }
  destruct (mcp_callTool w (h ++ [EvConnect]) "elpris.getPrices" args) as [res|e] eqn:E2.
  - rewrite (callMcpGetPrices_called _ _ _ _ E1 E2) in H. now inversion H.
  - rewrite (callMcpGetPrices_call_failed _ _ _ _ E1 E2) in H. discriminate.
Qed.

(** X9.  When the tool loop goes through, the tool endpoint has seen, for
    each call named get_el_price and in the order of the calls, one
    connection, one call of [elpris.getPrices] with the arguments of that
    call, and one close; and [toolParts] holds one functionResponse named
    get_el_price per such call. *)
Theorem toolLoop_success_trace w calls : forall acc h toolParts h',
  toolLoop w calls acc h = (inl toolParts, h') ->
  h' = h ++ flat_map (fun c => bridgeTrace (call_args c)) (filter recognized calls) /\
  exists payloads,
    toolParts = acc ++ map (functionResponsePart "get_el_price") payloads /\
    List.length payloads = List.length (filter recognized calls).
Proof.
  induction calls as [|c rest IH]; intros acc h toolParts h' H.
  - inversion H; subst. cbn. rewrite !app_nil_r. split; [reflexivity|].
    exists []. split; [now rewrite app_nil_r | reflexivity].
  - cbn [toolLoop filter] in *.
    change (call_name c =? "get_el_price")%string with (recognized c) in H.
    destruct (recognized c) eqn:Hc; [|now apply IH].
    apply String.eqb_eq in Hc. unfold bind in H.
    destruct (callMcpGetPrices w (call_args c) h) as [[payload|e] h1] eqn:B; [|discriminate].
    apply callMcpGetPrices_success in B. subst h1.
    destruct (IH _ _ _ _ H) as (-> & payloads & -> & Hlen).
    cbn [flat_map]. split; [now rewrite <- app_assoc|].
    exists (payload :: payloads). rewrite Hc, <- app_assoc. cbn [map app List.length].
    split; [reflexivity | now rewrite Hlen].
Qed.

Lemma toolLoop_success_trace_witness :
  [EvConnect; EvCallTool "elpris.getPrices" (JObj [("area", JStr "SE1")]); EvClose;
   EvConnect; EvCallTool "elpris.getPrices" (JObj [("area", JStr "SE3")]); EvClose]
  = [] ++ flat_map (fun c => bridgeTrace (call_args c))
            (filter recognized
               [mkCall "get_el_price" (JObj [("area", JStr "SE1")]);
                mkCall "get_weather" emptyObject;
                mkCall "get_el_price" (JObj [("area", JStr "SE3")])]).
Proof.
  apply (proj1 (toolLoop_success_trace
           (scripted [] [toolText "a"; toolText "b"])
           [mkCall "get_el_price" (JObj [("area", JStr "SE1")]);
            mkCall "get_weather" emptyObject;
            mkCall "get_el_price" (JObj [("area", JStr "SE3")])]
           [] []
           [functionResponsePart "get_el_price" (JStr "a");
            functionResponsePart "get_el_price" (JStr "b")]
           _ eq_refl)).
Defined.

(* ------------------------------------------------------------------ *)
(** ** The MCP server *)

Lemma isDigit_not_hyphen c : isDigit c = true -> Ascii.eqb c "-" = false.
Proof.
  intros H. destruct (Ascii.eqb_spec c "-") as [->|_]; [discriminate H | reflexivity].
Qed.

(** A segment without hyphen is split off whole. *)
Lemma split_segment seg : forall rest,
  forallb (fun c => negb (Ascii.eqb c "-")) (list_ascii_of_string seg) = true ->
  split "-" (seg ++ String "-" rest) = seg :: split "-" rest.
Proof.
  induction seg as [|c seg IH]; intros rest H; [reflexivity|].
  cbn [list_ascii_of_string forallb] in H. apply andb_true_iff in H. destruct H as [Hc H].
  apply negb_true_iff in Hc. cbn [String.append split]. rewrite Hc, (IH rest H). reflexivity.
Qed.

Lemma split_last seg :
  forallb (fun c => negb (Ascii.eqb c "-")) (list_ascii_of_string seg) = true ->
  split "-" seg = [seg].
Proof.
  induction seg as [|c seg IH]; intros H; [reflexivity|].
  cbn [list_ascii_of_string forallb] in H. apply andb_true_iff in H. destruct H as [Hc H].
  apply negb_true_iff in Hc. cbn [split]. rewrite Hc, (IH H). reflexivity.
Qed.

Lemma digits_no_hyphen n s :
  digits n s = true ->
  forallb (fun c => negb (Ascii.eqb c "-")) (list_ascii_of_string s) = true.
Proof.
  unfold digits. intros H. apply andb_true_iff in H. destruct H as [_ H].
  rewrite forallb_forall in *. intros c Hc.
  now rewrite (isDigit_not_hyphen c (H c Hc)).
Qed.

(** A date of the shape of the schema is its three groups of digits. *)
Lemma isDateShape_groups date :
  isDateShape date = true ->
  exists y m d,
    date = (y ++ String "-" (m ++ String "-" d))%string /\
    digits 4 y = true /\ digits 2 m = true /\ digits 2 d = true.
Proof.
  unfold isDateShape. intros H.
  destruct date as [|y1 [|y2 [|y3 [|y4 [|h1 [|m1 [|m2 [|h2 [|d1 [|d2 [|x rest]]]]]]]]]]];
    try discriminate H.
  cbn [list_ascii_of_string] in H.
  repeat (apply andb_true_iff in H; destruct H as [H ?]).
  repeat match goal with E : Ascii.eqb _ _ = true |- _ => apply Ascii.eqb_eq in E; subst end.
  exists (String y1 (String y2 (String y3 (String y4 "")))),
         (String m1 (String m2 "")), (String d1 (String d2 "")).
  split; [reflexivity|].
  unfold digits; cbn [String.length Nat.eqb list_ascii_of_string forallb andb].
  repeat match goal with E : isDigit _ = true |- _ => rewrite E; clear E end.
  unfold isDigit.
  repeat match goal with E : (_ <=? _)%nat = true |- _ => rewrite E; clear E end.
  auto.
Qed.

Lemma toApiUrl_groups y m d area :
  digits 4 y = true -> digits 2 m = true -> digits 2 d = true ->
  toApiUrl (y ++ String "-" (m ++ String "-" d)) area
  = ("https://www.elprisetjustnu.se/api/v1/prices/" ++ y ++ "/" ++ m ++ "-" ++ d
     ++ "_" ++ areaName area ++ ".json")%string.
Proof.
  intros Hy Hm Hd. unfold toApiUrl.
  rewrite (split_segment y _ (digits_no_hyphen _ _ Hy)).
  rewrite (split_segment m _ (digits_no_hyphen _ _ Hm)).
  rewrite (split_last d (digits_no_hyphen _ _ Hd)). reflexivity.
Qed.

(** X10.  For a date of the shape the input schema accepts, YYYY-MM-DD,
    [toApiUrl] is the address .../prices/YYYY/MM-DD_AREA.json of the price
    API, built from the three groups of digits of the date. *)
Theorem toApiUrl_of_schema_date date area :
  isDateShape date = true ->
  toApiUrl date area
  = ("https://www.elprisetjustnu.se/api/v1/prices/" ++ substring 0 4 date ++ "/"
     ++ substring 5 2 date ++ "-" ++ substring 8 2 date
     ++ "_" ++ areaName area ++ ".json")%string.
Proof.
  intros H. destruct (isDateShape_groups date H) as (y & m & d & -> & Hy & Hm & Hd).
  rewrite (toApiUrl_groups y m d area Hy Hm Hd).
  unfold digits in Hy, Hm, Hd.
  apply andb_true_iff in Hy, Hm, Hd. destruct Hy as [Hy _], Hm as [Hm _], Hd as [Hd _].
  apply Nat.eqb_eq in Hy, Hm, Hd.
  destruct y as [|y1 [|y2 [|y3 [|y4 [|]]]]]; try discriminate Hy.
  destruct m as [|m1 [|m2 [|]]]; try discriminate Hm.
  destruct d as [|d1 [|d2 [|]]]; try discriminate Hd.
  reflexivity.
Qed.

Lemma toApiUrl_of_schema_date_witness :
  toApiUrl "2025-10-07" SE3
  = "https://www.elprisetjustnu.se/api/v1/prices/2025/10-07_SE3.json".
Proof. apply (toApiUrl_of_schema_date "2025-10-07" SE3). reflexivity. Defined.

(** X11.  [toApiUrl] checks nothing: a date without hyphen is taken whole as
    the year, and the two missing groups appear as "undefined" in the
    address. *)
Theorem toApiUrl_without_hyphen date area :
  forallb (fun c => negb (Ascii.eqb c "-")) (list_ascii_of_string date) = true ->
  toApiUrl date area
  = ("https://www.elprisetjustnu.se/api/v1/prices/" ++ date
     ++ "/undefined-undefined_" ++ areaName area ++ ".json")%string.
Proof.
  intros H. unfold toApiUrl. rewrite (split_last date H). reflexivity.
Qed.

Lemma toApiUrl_without_hyphen_witness :
  toApiUrl "idag" SE1
  = "https://www.elprisetjustnu.se/api/v1/prices/idag/undefined-undefined_SE1.json".
Proof. apply (toApiUrl_without_hyphen "idag" SE1). reflexivity. Defined.

Lemma range_forallb (f : Z -> bool) (lo len : Z) :
  forallb (fun n => f (Z.of_nat n)) (seq (Z.to_nat lo) (Z.to_nat len)) = true ->
  forall z, (0 <= lo)%Z -> (lo <= z < lo + len)%Z -> f z = true.
Proof.
  intros H z Hlo Hz. rewrite forallb_forall in H.
  rewrite <- (Z2Nat.id z) by lia. apply H. apply in_seq. lia.
Qed.

Lemma showZ_year y : (1000 <= y <= 9999)%Z -> digits 4 (showZ y) = true.
Proof.
  intros Hy. apply (range_forallb (fun z => digits 4 (showZ z)) 1000 9000);
    [vm_compute; reflexivity | lia | lia].
Qed.

Lemma showZ_month m :
  (0 <= m <= 11)%Z -> digits 2 (padStart 2 "0" (showZ (m + 1))) = true.
Proof.
  intros Hm. apply (range_forallb (fun z => digits 2 (padStart 2 "0" (showZ (z + 1)))) 0 12);
    [vm_compute; reflexivity | lia | lia].
Qed.

Lemma showZ_day d :
  (1 <= d <= 31)%Z -> digits 2 (padStart 2 "0" (showZ d)) = true.
Proof.
  intros Hd. apply (range_forallb (fun z => digits 2 (padStart 2 "0" (showZ z))) 1 31);
    [vm_compute; reflexivity | lia | lia].
Qed.

Lemma isDateShape_of_groups y m d :
  digits 4 y = true -> digits 2 m = true -> digits 2 d = true ->
  isDateShape (y ++ String "-" (m ++ String "-" d)) = true.
Proof.
  unfold digits. intros Hy Hm Hd.
  apply andb_true_iff in Hy, Hm, Hd.
  destruct Hy as [Ly Hy], Hm as [Lm Hm], Hd as [Ld Hd].
  apply Nat.eqb_eq in Ly, Lm, Ld.
  destruct y as [|y1 [|y2 [|y3 [|y4 [|]]]]]; try discriminate Ly.
  destruct m as [|m1 [|m2 [|]]]; try discriminate Lm.
  destruct d as [|d1 [|d2 [|]]]; try discriminate Ld.
  cbn [list_ascii_of_string forallb] in Hy, Hm, Hd.
  unfold isDateShape. cbn [String.append list_ascii_of_string].
  destruct (isDigit y1); [|discriminate Hy].
  destruct (isDigit y2); [|discriminate Hy].
  destruct (isDigit y3); [|discriminate Hy].
  destruct (isDigit y4); [|discriminate Hy].
  destruct (isDigit m1); [|discriminate Hm].
  destruct (isDigit m2); [|discriminate Hm].
  destruct (isDigit d1); [|discriminate Hd].
  destruct (isDigit d2); [|discriminate Hd].
  reflexivity.
Qed.

(** X12.  Without a date, or with the empty string, [toYyyyMmDd] gives the
    date of the clock; for a year of four digits this has the shape
    YYYY-MM-DD that the input schema of the tool asks for, with month and day
    padded to two digits, and the address built from it is the one of that
    day. *)
Theorem toYyyyMmDd_default now dateLike area :
  (1000 <= getFullYear now <= 9999)%Z ->
  (0 <= getMonth now <= 11)%Z ->
  (1 <= getDate now <= 31)%Z ->
  dateLike = None \/ dateLike = Some "" ->
  toYyyyMmDd now dateLike = todaySthlm now /\
  isDateShape (toYyyyMmDd now dateLike) = true /\
  toApiUrl (toYyyyMmDd now dateLike) area
  = ("https://www.elprisetjustnu.se/api/v1/prices/" ++ showZ (getFullYear now) ++ "/"
     ++ padStart 2 "0" (showZ (getMonth now + 1)) ++ "-"
     ++ padStart 2 "0" (showZ (getDate now))
     ++ "_" ++ areaName area ++ ".json")%string.
Proof.
  intros Hy Hm Hd Hnone.
  assert (E : toYyyyMmDd now dateLike = todaySthlm now)
    by (destruct Hnone as [-> | ->]; reflexivity).
  rewrite E. split; [reflexivity|]. unfold todaySthlm. cbv zeta.
  pose proof (showZ_year _ Hy) as Dy.
  pose proof (showZ_month _ Hm) as Dm.
  pose proof (showZ_day _ Hd) as Dd.
  split.
  - exact (isDateShape_of_groups _ _ _ Dy Dm Dd).
  - exact (toApiUrl_groups _ _ _ area Dy Dm Dd).
Qed.

Lemma toYyyyMmDd_default_witness :
  toYyyyMmDd (mkClock 2025 2 7) (Some "") = "2025-03-07" /\
  toApiUrl (toYyyyMmDd (mkClock 2025 2 7) (Some "")) SE4
  = "https://www.elprisetjustnu.se/api/v1/prices/2025/03-07_SE4.json".
Proof.
  destruct (toYyyyMmDd_default (mkClock 2025 2 7) (Some "") SE4) as (E & _ & U);
    [cbn; lia | cbn; lia | cbn; lia | now right |].
  split; [exact E | exact U].
Defined.

Section PricesFacts.

Variable number : Type.
Variable num_zero : number.
Variable num_add : number -> number -> number.
Variable num_div : number -> nat -> number.
Variable Math_min Math_max : list number -> number.
Variable fetch : string -> FetchResponse number + JsError.
Variable Date_parse : string -> option Z.
Variable JSON_stringify : Payload number -> string.

Lemma getPrices_rows_nonempty date area rows :
  getPrices fetch date area = inl rows -> rows <> [].
Proof.
  unfold getPrices.
  destruct (fetch (toApiUrl date area)) as [res|e]; [|discriminate].
  destruct (negb (resp_ok res)); [discriminate|].
  destruct (resp_json res) as [[|[|r rs]]|e]; try discriminate.
  intros H. inversion H. discriminate.
Qed.

(** X13.  [getPrices] returns rows exactly when the one address it fetches,
    [toApiUrl date area], answers with an ok status and a JSON array that is
    not empty; the rows are that array.  So a successful call never yields
    an empty list; a status that is not ok is reported with its code. *)
Theorem getPrices_ok_iff date area rows :
  (getPrices fetch date area = inl rows <->
   exists res,
     fetch (toApiUrl date area) = inl res /\ resp_ok res = true /\
     resp_json res = inl (RowArray rows) /\ rows <> []) /\
  (forall res,
     fetch (toApiUrl date area) = inl res -> resp_ok res = false ->
     getPrices fetch date area
     = inr (mkError ("Fetch misslyckades (" ++ showZ (resp_status res) ++ ") för "
                     ++ date ++ " " ++ areaName area)%string)).
Proof.
  unfold getPrices. split; [split|].
  - destruct (fetch (toApiUrl date area)) as [res|e]; [|discriminate].
    destruct (resp_ok res) eqn:Hok; [|discriminate]. cbn [negb].
    destruct (resp_json res) as [[|[|r rs]]|e] eqn:J; try discriminate.
    intros H. inversion H; subst. exists res. repeat split; auto. discriminate.
  - intros (res & -> & -> & -> & Hne). cbn [negb].
    destruct rows as [|r rs]; [contradiction | reflexivity].
  - intros res -> ->. reflexivity.
Qed.

Lemma inSlot_iff now (r : ApiRow number) :
  inSlot Date_parse now r = true <->
  exists t0 t1,
    Date_parse (time_start r) = Some t0 /\ Date_parse (time_end r) = Some t1 /\
    (t0 <= now < t1)%Z.
Proof.
  unfold inSlot. split.
  - destruct (Date_parse (time_start r)) as [t0|]; [|discriminate].
    destruct (Date_parse (time_end r)) as [t1|]; [|now rewrite andb_false_r].
    intros H. apply andb_true_iff in H. destruct H as [H0 H1].
    exists t0, t1. repeat split; auto; lia.
  - intros (t0 & t1 & -> & -> & H0 & H1). apply andb_true_iff. split; lia.
Qed.

(** X14.  In the summary, [count] is the number of rows, and the current
    price and the current slot are those of the first row whose interval
    [time_start, time_end) holds the present instant: such a row is always
    reported, whatever is reported is such a row, and both fields are null
    exactly when no row holds the instant. *)
Theorem summarize_current now rows :
  let s := summarize num_zero num_add num_div Math_min Math_max Date_parse now rows in
  count s = List.length rows /\
  (forall start end_,
     current_slot s = Some (start, end_) ->
     exists pre r post t0 t1,
       rows = pre ++ r :: post /\
       Forall (fun r' => inSlot Date_parse now r' = false) pre /\
       time_start r = start /\ time_end r = end_ /\
       currentPrice_SEK_per_kWh s = Some (SEK_per_kWh r) /\
       Date_parse start = Some t0 /\ Date_parse end_ = Some t1 /\
       (t0 <= now < t1)%Z) /\
  (Forall (fun r => inSlot Date_parse now r = false) rows ->
   current_slot s = None /\ currentPrice_SEK_per_kWh s = None) /\
  (forall pre r post t0 t1,
     rows = pre ++ r :: post ->
     Forall (fun r' => inSlot Date_parse now r' = false) pre ->
     Date_parse (time_start r) = Some t0 -> Date_parse (time_end r) = Some t1 ->
     (t0 <= now < t1)%Z ->
     current_slot s = Some (time_start r, time_end r) /\
     currentPrice_SEK_per_kWh s = Some (SEK_per_kWh r)) /\
  (current_slot s = None ->
   forall r t0 t1,
     In r rows ->
     Date_parse (time_start r) = Some t0 -> Date_parse (time_end r) = Some t1 ->
     ~ (t0 <= now < t1)%Z).
Proof.
  cbv zeta. unfold summarize. cbn [count current_slot currentPrice_SEK_per_kWh].
  split; [reflexivity|]. split; [|split; [|split]].
  - induction rows as [|r rs IH]; intros start end_ H; [discriminate|].
    cbn [find] in *. destruct (inSlot Date_parse now r) eqn:S.
    + cbn [option_map] in *. inversion H; subst.
      apply inSlot_iff in S. destruct S as (t0 & t1 & P0 & P1 & Hin).
      exists [], r, rs, t0, t1. repeat split; auto; lia.
    + destruct (IH start end_ H) as (pre & r' & post & t0 & t1 & -> & F & rest).
      exists (r :: pre), r', post, t0, t1. split; [reflexivity|].
      split; [constructor; assumption | exact rest].
  - induction 1 as [|r rs Hr _ IH]; [split; reflexivity|].
    cbn [find]. rewrite Hr. exact IH.
  - intros pre r post t0 t1 -> Hpre P0 P1 Hin.
    assert (S : inSlot Date_parse now r = true)
      by (apply inSlot_iff; now exists t0, t1).
    induction Hpre as [|r' pre' Hr' _ IH].
    + cbn [app find]. rewrite S. split; reflexivity.
    + cbn [app find]. rewrite Hr'. exact IH.
  - intros Hnone r t0 t1 Hr P0 P1 Hin.
    assert (S : inSlot Date_parse now r = true)
      by (apply inSlot_iff; now exists t0, t1).
    destruct (find (inSlot Date_parse now) rows) as [r'|] eqn:F; [discriminate Hnone|].
    pose proof (find_none _ _ F r Hr) as N. congruence.
Qed.


End PricesFacts.

Lemma getPrices_ok_iff_witness :
  getPrices sampleFetch "2025-03-07" SE3 = inl sampleRows /\
  getPrices sampleFetch "2025-03-08" SE3
  = inr (mkError "Fetch misslyckades (404) för 2025-03-08 SE3").
Proof.
  split.
  - apply (proj2 (proj1 (getPrices_ok_iff Z sampleFetch "2025-03-07" SE3 sampleRows))).
    exists (mkFetchResponse true 200 (inl (RowArray sampleRows))).
    repeat split; try reflexivity. discriminate.
  - apply (proj2 (getPrices_ok_iff Z sampleFetch "2025-03-08" SE3 [])
             (mkFetchResponse false 404 (inl NotAnArray))); reflexivity.
Defined.

Lemma summarize_current_witness :
  exists pre r post t0 t1,
    sampleRows = pre ++ r :: post /\
    Forall (fun r' => inSlot sampleParse 90%Z r' = false) pre /\
    time_start r = "01:00" /\ time_end r = "02:00" /\
    currentPrice_SEK_per_kWh
      (summarize 0%Z Z.add (fun s n => Z.div s (Z.of_nat n))
         (fold_right Z.min 0%Z) (fold_right Z.max 0%Z) sampleParse 90%Z sampleRows)
    = Some (SEK_per_kWh r) /\
    sampleParse "01:00" = Some t0 /\ sampleParse "02:00" = Some t1 /\
    (t0 <= 90 < t1)%Z.
Proof.
  apply (proj1 (proj2 (summarize_current Z 0%Z Z.add (fun s n => Z.div s (Z.of_nat n))
                         (fold_right Z.min 0%Z) (fold_right Z.max 0%Z) sampleParse
                         90%Z sampleRows))).
  reflexivity.
Defined.


(** X16.  The CORS middleware allows exactly two origins: the header
    Access-Control-Allow-Origin is set, to the origin of the request itself,
    when that origin is http://localhost:5173 or http://127.0.0.1:5173, and is
    not set for any other origin or without one. *)
Theorem cors_allow_origin req hs o :
  hs "Access-Control-Allow-Origin" = None ->
  (headersOf (cors req hs) "Access-Control-Allow-Origin" = Some o <->
   req_header req "Origin" = Some o /\
   (o = "http://localhost:5173" \/ o = "http://127.0.0.1:5173")).
Proof.
  intros Hnone. unfold cors. cbv zeta.
  destruct (String.eqb (req_method req) "OPTIONS"); cbn [headersOf];
    unfold setHeader; cbn [String.eqb Ascii.eqb Bool.eqb andb];
    (destruct (req_header req "Origin") as [o'|];
     [ destruct (String.eqb_spec o' "http://localhost:5173") as [->|N1];
       [ cbn; split; [intros [= <-]; auto | intros [[= <-] _]; reflexivity]
       | destruct (String.eqb_spec o' "http://127.0.0.1:5173") as [->|N2];
         [ cbn; split; [intros [= <-]; auto | intros [[= <-] _]; reflexivity]
         | cbn [orb andb]; rewrite Hnone; split;
           [discriminate | intros [[= <-] [E|E]]; congruence] ] ]
     | rewrite Hnone; split; [discriminate | intros [E _]; discriminate E] ]).
Qed.

Lemma cors_allow_origin_witness :
  headersOf (cors (sampleRequest "POST" (Some "http://localhost:5173")) noHeaders)
    "Access-Control-Allow-Origin" = Some "http://localhost:5173".
Proof.
  apply (proj2 (cors_allow_origin
                  (sampleRequest "POST" (Some "http://localhost:5173")) noHeaders
                  "http://localhost:5173" eq_refl)).
  split; [reflexivity | now left].
Defined.



(* ------------------------------------------------------------------ *)
(** ** The browser client *)

Lemma fetchPayload_trace w ui h :
  exists t,
    snd (fetchPayload w ui h) = h ++ t /\
    ~ In EvClose t /\
    (t = [EvConnect] \/ t = [EvConnect; EvCallTool "elpris.getPrices" (formArguments ui)]).
Proof.
  unfold fetchPayload, bind, client_connect, client_callTool, fromResult.
  destruct (mcp_connect w h) as [e|].
  - exists [EvConnect]. cbn [snd]. split; [reflexivity|]. split; [|now left].
    intros [H|[]]. discriminate.
  - exists [EvConnect; EvCallTool "elpris.getPrices" (formArguments ui)].
    split; [|split; [|now right]].
    + destruct (mcp_callTool w _ _ _) as [res|e]; cbn [snd]; now rewrite <- app_assoc.
    + intros [H|[H|[]]]; discriminate.
Qed.

(** X18.  When [fetchPrices] is done, [loading] is off and the form is as it
    was.  When connecting, the tool call or the decoding failed, the data is
    null, whatever an earlier fetch had left, and the error is the message of
    what was thrown.  When they succeeded, the data is the decoded payload
    (null if the payload is the JSON null) and the error is the message of a
    failed close, or null.  So a state without error always shows the payload
    of this fetch. *)
Theorem fetchPrices_final_state w ui h :
  let ui' := fst (fetchPrices w ui h) in
  ui_loading ui' = false /\
  ui_date ui' = ui_date ui /\ ui_area ui' = ui_area ui /\
  (forall e h1,
     fetchPayload w ui h = (inr e, h1) ->
     ui_data ui' = JNull /\ ui_error ui' = Some (message e)) /\
  (forall parsed h1,
     fetchPayload w ui h = (inl parsed, h1) ->
     ui_data ui' = parsed /\
     ui_error ui' = match mcp_close w h1 with Some e => Some (message e) | None => None end) /\
  (ui_error ui' = None ->
   exists h1, fetchPayload w ui h = (inl (ui_data ui'), h1) /\ mcp_close w h1 = None).
Proof.
  cbv zeta. unfold fetchPrices. cbv zeta.
  destruct (fetchPayload w ui h) as [[parsed|e] h1].
  - unfold client_close. destruct (mcp_close w h1) as [e|] eqn:C; cbn.
    + split; [reflexivity|]. split; [reflexivity|]. split; [reflexivity|].
      split; [intros e0 h0 H; discriminate H|]. split; [|discriminate].
      intros p h0 [= <- <-]. rewrite C. split; reflexivity.
    + split; [reflexivity|]. split; [reflexivity|]. split; [reflexivity|].
      split; [intros e0 h0 H; discriminate H|]. split.
      * intros p h0 [= <- <-]. rewrite C. split; reflexivity.
      * intros _. exists h1. split; [reflexivity | exact C].
  - cbn. split; [reflexivity|]. split; [reflexivity|]. split; [reflexivity|].
    split; [|split; [intros p h0 H; discriminate H | discriminate]].
    intros e0 h0 [= <- <-]. split; reflexivity.
Qed.

Lemma fetchPrices_final_state_witness :
  ui_data (fst (fetchPrices brokenToolWorld sampleUi [])) = JNull /\
  ui_error (fst (fetchPrices brokenToolWorld sampleUi [])) = Some "fetch failed".
Proof.
  apply (proj1 (proj2 (proj2 (proj2
           (fetchPrices_final_state brokenToolWorld sampleUi []))))
           (mkError "fetch failed")
           [EvConnect; EvCallTool "elpris.getPrices" (formArguments sampleUi)]).
  reflexivity.
Defined.

(** X19.  The browser issues [client.close()] exactly when connecting, the
    tool call and the decoding of the reply have all succeeded: it is the
    last statement of the [try] block, so a failed connect, a failed tool
    call and a reply that cannot be decoded all leave the connection without
    a close.  Data other than null is therefore only ever shown after the
    close was issued. *)
Theorem fetchPrices_closes_iff_decoded w ui h :
  exists t,
    snd (fetchPrices w ui h) = h ++ t /\
    (In EvClose t <->
     mcp_connect w h = None /\
     exists res parsed,
       mcp_callTool w (h ++ [EvConnect]) "elpris.getPrices" (formArguments ui) = inl res /\
       parseContent w res = inl parsed) /\
    (ui_data (fst (fetchPrices w ui h)) <> JNull -> In EvClose t).
Proof.
  unfold fetchPrices, fetchPayload, bind, client_connect, client_callTool, fromResult,
    client_close. cbv zeta.
  destruct (mcp_connect w h) as [e|] eqn:E1.
  { exists [EvConnect]. cbn. split; [reflexivity|]. split; [split|].
    - intros [H|[]]. discriminate H.
    - intros [H _]. discriminate H.
    - intros H. now contradiction H. }
  destruct (mcp_callTool w (h ++ [EvConnect]) "elpris.getPrices" (formArguments ui))
    as [res|e] eqn:E2.
  2:{ exists [EvConnect; EvCallTool "elpris.getPrices" (formArguments ui)]. cbn.
      split; [now rewrite <- app_assoc|]. split; [split|].
      - intros [H|[H|[]]]; discriminate H.
      - intros [_ (res & parsed & H & _)]. discriminate H.
      - intros H. now contradiction H. }
  destruct (parseContent w res) as [parsed|e] eqn:E3.
  - exists [EvConnect; EvCallTool "elpris.getPrices" (formArguments ui); EvClose].
    assert (Hin : In EvClose
                    [EvConnect; EvCallTool "elpris.getPrices" (formArguments ui); EvClose])
      by (right; right; now left).
    destruct (mcp_close w _); cbn [fst snd ui_data];
      (split; [now rewrite <- !app_assoc|]);
      (split; [split; [intros _; split; [reflexivity | now exists res, parsed]
                      | intros _; exact Hin]
              | intros _; exact Hin]).
  - exists [EvConnect; EvCallTool "elpris.getPrices" (formArguments ui)]. cbn.
    split; [now rewrite <- app_assoc|]. split; [split|].
    + intros [H|[H|[]]]; discriminate H.
    + intros [_ (res' & parsed & [= <-] & H)]. congruence.
    + intros H. now contradiction H.
Qed.

(** A payload that is the JSON null: the connection is closed, and the state
    shows neither data nor error. *)
Lemma fetchPrices_closes_iff_decoded_witness :
  fetchPrices nullPayloadWorld sampleUi []
  = (mkUi "2025-03-07" SE3 false None JNull,
     [EvConnect;
      EvCallTool "elpris.getPrices" (JObj [("date", JStr "2025-03-07"); ("area", JStr "SE3")]);
      EvClose])
  /\ In EvClose
       [EvConnect;
        EvCallTool "elpris.getPrices" (JObj [("date", JStr "2025-03-07"); ("area", JStr "SE3")]);
        EvClose].
Proof.
  split; [reflexivity|].
  destruct (fetchPrices_closes_iff_decoded nullPayloadWorld sampleUi [])
    as (t & Ht & Hiff & _).
  cbn in Ht. subst t. apply (proj2 Hiff).
  split; [reflexivity|].
  exists (mkCallToolResult (Some [mkItem (Some "null")])), JNull.
  split; reflexivity.
Defined.

(* ------------------------------------------------------------------ *)
(** ** Between the components *)

(** X20.  The handler collects a call exactly for the parts, of any
    candidate, whose [functionCall] has a non-empty name; the call carries that
    name and the arguments of the part, or [{}] when the part has none. *)
Theorem collectCalls_iff cands c :
  In c (collectCalls cands) <->
  exists cand p fc,
    In cand cands /\ In p (candParts cand) /\
    part_functionCall p = Some fc /\ fc_name fc <> "" /\
    c = mkCall (fc_name fc) (match fc_args fc with Some a => a | None => JObj [] end).
Proof.
  unfold collectCalls. rewrite in_flat_map. split.
  - intros (cand & Hcand & Hin). apply in_flat_map in Hin. destruct Hin as (p & Hp & Hc).
    unfold callsOfPart in Hc. destruct (part_functionCall p) as [fc|] eqn:F; [|contradiction].
    destruct (fc_name fc) as [|ch n] eqn:N; [contradiction|].
    destruct Hc as [<-|[]]. exists cand, p, fc. rewrite N.
    repeat split; auto. discriminate.
  - intros (cand & p & fc & Hcand & Hp & F & N & ->).
    exists cand. split; [exact Hcand|]. apply in_flat_map. exists p. split; [exact Hp|].
    unfold callsOfPart. rewrite F. destruct (fc_name fc); [contradiction | now left].
Qed.

Lemma collectCalls_iff_witness :
  In (mkCall "get_el_price" (JObj []))
     (collectCalls [mkCandidate None;
                    mkCandidate (Some (mkContent "model"
                      [textPart "ett";
                       functionCallPart (mkFunctionCall None "" None);
                       functionCallPart (mkFunctionCall (Some "id-1") "get_el_price" None)]))]).
Proof.
  apply (proj2 (collectCalls_iff _ _)).
  exists (mkCandidate (Some (mkContent "model"
            [textPart "ett";
             functionCallPart (mkFunctionCall None "" None);
             functionCallPart (mkFunctionCall (Some "id-1") "get_el_price" None)]))),
         (functionCallPart (mkFunctionCall (Some "id-1") "get_el_price" None)),
         (mkFunctionCall (Some "id-1") "get_el_price" None).
  repeat split; simpl; auto. discriminate.
Defined.


